(** * CWatM soil module: a shallow embedding of [soil.py]

    The module [cwatm/hydrological_modules/soil.py] advances the water
    stored in a three-layer soil column by one time step ([dynamic]) and
    sets the layer thicknesses once ([initial]).

    Modelling choices.

    - Numbers.  The source computes on NumPy float arrays.  Here every
      quantity is a real number ([R]): the development is about the
      arithmetic the code writes down, in exact real arithmetic, and says
      nothing about rounding, infinities or NaN.  The [isnan] assertions
      of the source therefore have no counterpart.  A quotient whose
      denominator is zero (infinite or NaN in NumPy: a layer with
      [ws3 = wres3] makes line 395 compute 0/0, and the NaN fails the
      assertion of line 404) has the value 0 that [R] gives it; what the
      model computes on such input has no counterpart in the source.
    - Arrays.  Every array of the source is indexed by the same cell
      position.  A cell is a record holding the slice of every input
      array at one position, and an array is a list of cells.  All
      array operations of [dynamic] are elementwise, so each source
      assignment becomes one definition on a cell, named after the
      variable and the source line of the assignment ([w3_205] is [w3]
      after line 205).  A masked assignment [x[mask] = e] leaves [x] as it
      was outside the mask.
    - Assertions.  The [assert (...).all()] statements look at the whole
      array.  [dynamic] returns the line of the first assertion that some
      cell violates, or the list of per-cell results. *)

From Stdlib Require Import Reals Lra Lia List Bool Arith.
Import ListNotations.
Open Scope R_scope.

(** ** NumPy primitives on reals *)

Module Np.

(** Comparisons as booleans ([x > y], [x < y], [x <= y], [x >= y]). *)
Definition gtb (x y : R) : bool := if Rlt_dec y x then true else false.
Definition ltb (x y : R) : bool := if Rlt_dec x y then true else false.
Definition leb (x y : R) : bool := if Rle_dec x y then true else false.
Definition geb (x y : R) : bool := if Rle_dec y x then true else false.

(** [np.where(c, x, y)] at one position. *)
Definition where_ (c : bool) (x y : R) : R := if c then x else y.

(** [np.maximum], [np.minimum], [np.sqrt], [np.square]. *)
Definition maximum (x y : R) : R := Rmax x y.
Definition minimum (x y : R) : R := Rmin x y.
Definition square (x : R) : R := x * x.

(** [x ** y] for floats: [exp (y * ln x)] on a positive base; a zero
    base gives 0 for a positive exponent and 1 for exponent 0.  A zero
    base with a negative exponent (infinite in NumPy) and a negative
    base with a fractional exponent (NaN in NumPy) have no real value;
    the model gives them 0, resp. 1 at exponent 0. *)
Definition power (x y : R) : R :=
  if Rlt_dec 0 x then Rpower x y
  else if Req_dec_T y 0 then 1 else 0.

End Np.

(** Modelled from the spec: [divideValues] of
    [cwatm.management_modules.data_handling] is not part of the module;
    the spec describes it as the quotient "defaulting to 1 when the
    denominator is degenerate", the default being an argument. *)
Definition divideValues (x y default : R) : R :=
  if Req_dec_T y 0 then default else x / y.

(** ** Data *)

(** Scalars of [self.var]: they are used without an index in [dynamic]
    ([cPrefFlow] is the exponent of the [bioarea]-sized [relSat] on line
    346, [maxtopwater] and [FrostIndexThreshold] are compared with
    indexed arrays). *)
Record Globals := {
  FrostIndexThreshold : R;
  maxtopwater : R;
  cPrefFlow : R
}.

(** The slice of the input arrays at one cell position: the [self.var]
    fields read by [dynamic], their values before the step for those it
    overwrites, and the five array arguments of [dynamic].
    [land_use_type] is a class index, a natural number. *)
Record Cell := {
  land_use_type : nat;
  (* storages before the step *)
  w1 : R; w2 : R; w3 : R; topwater : R;
  actTransTotal : R; actBareSoilEvap : R; actualET : R;
  (* soil parameters *)
  ws1 : R; ws2 : R; ws3 : R;
  wres1 : R; wres2 : R; wres3 : R;
  wfc1 : R; wfc2 : R; wfc3 : R;
  wwp1 : R; wwp2 : R; wwp3 : R;
  KSat1 : R; KSat2 : R; KSat3 : R;
  lambda1 : R; lambda2 : R; lambda3 : R;
  kunSatFC12 : R; kunSatFC23 : R;
  arnoBeta : R;
  adjRoot0 : R; adjRoot1 : R; adjRoot2 : R;
  percolationImp : R;
  cropGroupNumber : R;
  capriseindex : R;
  (* forcing held in self.var *)
  cropKC : R; EWRef : R; FrostIndex : R;
  natural_available_water_infiltration : R;
  actual_irrigation_consumption : R;
  (* arguments of dynamic *)
  capillar : R;
  openWaterEvap : R;
  potTranspiration : R;
  potBareSoilEvap : R;
  totalPotET : R
}.

(** Unsaturated conductivity (Van Genuchten), the expression of lines
    407, 408, 458-460 and 496-498. *)
Definition kUnSat (KSat lambda satTerm : R) : R :=
  KSat * sqrt satTerm *
  Np.square (1 - Np.power (1 - Np.power satTerm (1 / (lambda / (lambda + 1))))
                          (lambda / (lambda + 1))).

(** Potential infiltration as line 336 writes it. *)
Definition arno_potInf (store satAreaFrac potBeta : R) : R :=
  store - store * (1 - Np.power (1 - satAreaFrac) potBeta).

(** [np.maximum(np.minimum(x, 1.0), 0)]. *)
Definition clamp01 (x : R) : R := Np.maximum (Np.minimum x 1) 0.

(** ** [dynamic], one definition per assignment *)

Section Assignments.

Variable g : Globals.
Variable c : Cell.

(** Lines 180-182: the index sets. *)
Definition bioarea : bool := (land_use_type c <? 4)%nat.
Definition paddy_irrigated_land : bool := (land_use_type c =? 2)%nat.
Definition irrigated_land : bool :=
  (land_use_type c =? 2)%nat || (land_use_type c =? 3)%nat.
Definition non_irrigated_bioland : bool :=
  (land_use_type c =? 0)%nat || (land_use_type c =? 1)%nat.

Definition frozen : bool := Np.gtb (FrostIndex c) (FrostIndexThreshold g).
Definition flooded : bool := Np.gtb (cropKC c) 0.75.

(** Lines 183-185. *)
Definition availWaterInfiltration_183 : R :=
  natural_available_water_infiltration c + actual_irrigation_consumption c.
Definition assert_184 : bool := Np.geb (availWaterInfiltration_183 + 1e-6) 0.
Definition availWaterInfiltration_185 : R :=
  if Np.ltb availWaterInfiltration_183 0 then 0 else availWaterInfiltration_183.

(** Lines 189-201: paddy ponding and open-water evaporation. *)
Definition topwater_189 : R :=
  if paddy_irrigated_land
  then Np.where_ flooded (topwater c + availWaterInfiltration_185) (topwater c)
  else topwater c.
Definition openWaterEvap_192 : R :=
  if paddy_irrigated_land
  then Np.minimum (Np.maximum 0 topwater_189) (EWRef c)
  else openWaterEvap c.
Definition topwater_193 : R :=
  if paddy_irrigated_land then topwater_189 - openWaterEvap_192 else topwater_189.
Definition assert_195 : bool := Np.geb topwater_193 0.
Definition availWaterInfiltration_198 : R :=
  if paddy_irrigated_land
  then Np.where_ flooded topwater_193 (topwater_193 + availWaterInfiltration_185)
  else availWaterInfiltration_185.
Definition potBareSoilEvap_201 : R :=
  if paddy_irrigated_land
  then Np.maximum 0 (potBareSoilEvap c - openWaterEvap_192)
  else potBareSoilEvap c.

(** Lines 205-214: capillary rise from groundwater and its cascade. *)
Definition w3_205 : R := if bioarea then w3 c + capillar c else w3 c.
Definition w2_207 : R :=
  if bioarea
  then w2 c + Np.where_ (Np.gtb w3_205 (ws3 c)) (w3_205 - ws3 c) 0
  else w2 c.
Definition w3_208 : R := if bioarea then Np.minimum (ws3 c) w3_205 else w3_205.
Definition w1_210 : R :=
  if bioarea
  then w1 c + Np.where_ (Np.gtb w2_207 (ws2 c)) (w2_207 - ws2 c) 0
  else w1 c.
Definition w2_211 : R := if bioarea then Np.minimum (ws2 c) w2_207 else w2_207.
Definition saverunofffromGW : R :=
  Np.where_ (Np.gtb w1_210 (ws1 c)) (w1_210 - ws1 c) 0.
Definition w1_214 : R := if bioarea then Np.minimum (ws1 c) w1_210 else w1_210.
Definition assert_216 : bool := Np.geb w1_214 0.
Definition assert_217 : bool := Np.geb w2_211 0.
Definition assert_218 : bool := Np.geb w3_208 0.

(** Lines 224-256: the depletion fraction [p]. *)
Definition etpotMax : R := Np.minimum (0.1 * (totalPotET c * 1000)) 1.
Definition p_230 : R := 1 / (0.76 + 1.5 * etpotMax) - 0.4.
Definition p_232 : R := p_230 + (etpotMax - 0.6) / 4.
Definition p_241 : R :=
  1 / (0.76 + 1.5 * etpotMax) - 0.10 * (5 - cropGroupNumber c).
Definition p_247 : R :=
  Np.where_ (Np.leb (cropGroupNumber c) 2.5)
    (p_241 + (etpotMax - 0.6) / (cropGroupNumber c * (cropGroupNumber c + 3)))
    p_241.
(** On [bioarea] (types 0 to 3) one of the two masks holds, so the
    NaN the array is first filled with is never read. *)
Definition p_251 : R := if irrigated_land then p_232 else p_247.
Definition p_256 : R := Np.maximum (Np.minimum p_251 1) 0.

(** Lines 260-276: critical moisture and stress reduction. *)
Definition wCrit1 : R := ((1 - p_256) * (wfc1 c - wwp1 c)) + wwp1 c.
Definition wCrit2 : R := ((1 - p_256) * (wfc2 c - wwp2 c)) + wwp2 c.
Definition wCrit3 : R := ((1 - p_256) * (wfc3 c - wwp3 c)) + wwp3 c.
Definition rws1_267 : R := divideValues (w1_214 - wwp1 c) (wCrit1 - wwp1 c) 1.
Definition rws2_268 : R := divideValues (w2_211 - wwp2 c) (wCrit2 - wwp2 c) 1.
Definition rws3_269 : R := divideValues (w3_208 - wwp3 c) (wCrit3 - wwp3 c) 1.
Definition rws1_274 : R := Np.maximum (Np.minimum 1 rws1_267) 0 * adjRoot0 c.
Definition rws2_275 : R := Np.maximum (Np.minimum 1 rws2_268) 0 * adjRoot1 c.
Definition rws3_276 : R := Np.maximum (Np.minimum 1 rws3_269) 0 * adjRoot2 c.

(** Lines 278-302: transpiration. *)
Definition TaMax_278 : R := potTranspiration c * (rws1_274 + rws2_275 + rws3_276).
Definition TaMax_286 : R := Np.where_ frozen 0 TaMax_278.
Definition ta1 : R :=
  Np.maximum (Np.minimum (TaMax_286 * adjRoot0 c) (w1_214 - wwp1 c)) 0.
Definition ta2 : R :=
  Np.maximum (Np.minimum (TaMax_286 * adjRoot1 c) (w2_211 - wwp2 c)) 0.
Definition ta3 : R :=
  Np.maximum (Np.minimum (TaMax_286 * adjRoot2 c) (w3_208 - wwp3 c)) 0.
Definition w1_294 : R := if bioarea then w1_214 - ta1 else w1_214.
Definition w2_295 : R := if bioarea then w2_211 - ta2 else w2_211.
Definition w3_296 : R := if bioarea then w3_208 - ta3 else w3_208.
Definition assert_298 : bool := Np.geb w1_294 0.
Definition assert_299 : bool := Np.geb w2_295 0.
Definition assert_300 : bool := Np.geb w3_296 0.
Definition actTransTotal_302 : R :=
  if bioarea then ta1 + ta2 + ta3 else actTransTotal c.

(** Lines 309-316: bare-soil evaporation. *)
Definition actBareSoilEvap_309 : R :=
  if bioarea
  then Np.minimum potBareSoilEvap_201 (Np.maximum 0 (w1_294 - wres1 c))
  else actBareSoilEvap c.
Definition actBareSoilEvap_311 : R :=
  if bioarea then Np.where_ frozen 0 actBareSoilEvap_309 else actBareSoilEvap_309.
Definition actBareSoilEvap_314 : R :=
  if paddy_irrigated_land
  then Np.where_ (Np.gtb topwater_193 0) 0 actBareSoilEvap_311
  else actBareSoilEvap_311.
Definition w1_316 : R := if bioarea then w1_294 - actBareSoilEvap_314 else w1_294.

(** Lines 321-336: infiltration capacity (Arno scheme). *)
Definition soilWaterStorage : R := w1_316 + w2_295.
Definition soilWaterStorageCap : R := ws1 c + ws2 c.
Definition relSat_323 : R := soilWaterStorage / soilWaterStorageCap.
Definition relSat_324 : R := Np.minimum relSat_323 1.
Definition satAreaFrac_328 : R := 1 - Np.power (1 - relSat_324) (arnoBeta c).
Definition satAreaFrac_332 : R := Np.maximum (Np.minimum satAreaFrac_328 1) 0.
Definition store : R := soilWaterStorageCap / (arnoBeta c + 1).
Definition potBeta : R := (arnoBeta c + 1) / arnoBeta c.
Definition potInf : R := arno_potInf store satAreaFrac_332 potBeta.

(** Lines 345-352: preferential flow. *)
Definition prefFlow_346 : R :=
  if bioarea
  then availWaterInfiltration_198 * Np.power relSat_324 (cPrefFlow g)
  else 0.
Definition prefFlow_347 : R :=
  if bioarea then Np.where_ frozen 0 prefFlow_346 else prefFlow_346.
Definition prefFlow_348 : R := if paddy_irrigated_land then 0 else prefFlow_347.
Definition prefFlow_352 : R :=
  if bioarea then prefFlow_348 * (1 - capriseindex c) else prefFlow_348.

(** Lines 357-374: infiltration, direct runoff and the release of ponded
    water. *)
Definition infiltration_358 : R :=
  if bioarea
  then Np.minimum potInf (availWaterInfiltration_198 - prefFlow_352)
  else 0.
Definition infiltration_360 : R :=
  if bioarea then Np.where_ frozen 0 infiltration_358 else infiltration_358.
Definition directRunoff_363 : R :=
  if bioarea
  then Np.maximum 0 (availWaterInfiltration_198 - infiltration_360 - prefFlow_352)
  else 0.
Definition topwater_367 : R :=
  if paddy_irrigated_land
  then Np.maximum 0 (topwater_193 - infiltration_360)
  else topwater_193.
Definition h : R := Np.maximum 0 (topwater_367 - maxtopwater g).
Definition directRunoff_370 : R :=
  if paddy_irrigated_land
  then Np.where_ flooded h directRunoff_363
  else directRunoff_363.
Definition topwater_372 : R :=
  if paddy_irrigated_land
  then Np.maximum 0 (topwater_367 - directRunoff_370)
  else topwater_367.
Definition directRunoff_374 : R :=
  if bioarea then directRunoff_370 + saverunofffromGW else directRunoff_370.

(** Lines 380-382: infiltration enters layer 1, the excess layer 2. *)
Definition w1_380 : R := if bioarea then w1_316 + infiltration_360 else w1_316.
Definition w2_381 : R :=
  if bioarea
  then w2_295 + Np.where_ (Np.gtb w1_380 (ws1 c)) (w1_380 - ws1 c) 0
  else w2_295.
Definition w1_382 : R := if bioarea then Np.minimum (ws1 c) w1_380 else w1_380.
Definition assert_385 : bool := Np.geb w1_382 0.
Definition assert_386 : bool := Np.geb w2_381 0.
Definition assert_387 : bool := Np.geb w3_296 0.

(** Lines 390-408: available water and conductivities before the
    capillary rise between the layers.  The assertions of lines 403 and
    404 hold by the two assignments before them. *)
Definition availWater1_390 : R := Np.maximum 0 (w1_382 - wres1 c).
Definition availWater2_391 : R := Np.maximum 0 (w2_381 - wres2 c).
Definition availWater3_392 : R := Np.maximum 0 (w3_296 - wres3 c).
Definition satTerm2_394 : R := availWater2_391 / (ws2 c - wres2 c).
Definition satTerm3_395 : R := availWater3_392 / (ws3 c - wres3 c).
Definition satTerm2_397 : R := if Np.ltb satTerm2_394 0 then 0 else satTerm2_394.
Definition satTerm2_398 : R := if Np.gtb satTerm2_397 1 then 1 else satTerm2_397.
Definition satTerm3_399 : R := if Np.ltb satTerm3_395 0 then 0 else satTerm3_395.
Definition satTerm3_400 : R := if Np.gtb satTerm3_399 1 then 1 else satTerm3_399.
Definition assert_403 : bool := Np.geb satTerm2_398 0 && Np.leb satTerm2_398 1.
Definition assert_404 : bool := Np.geb satTerm3_400 0 && Np.leb satTerm3_400 1.
Definition kUnSat2_407 : R := kUnSat (KSat2 c) (lambda2 c) satTerm2_398.
Definition kUnSat3_408 : R := kUnSat (KSat3 c) (lambda3 c) satTerm3_400.

(** Lines 412-429: capillary rise from layer 2 to 1 and from 3 to 2. *)
Definition satTermFC1 : R :=
  Np.maximum 0 (w1_382 - wres1 c) / (wfc1 c - wres1 c).
Definition satTermFC2 : R :=
  Np.maximum 0 (w2_381 - wres2 c) / (wfc2 c - wres2 c).
Definition capRise1 : R :=
  Np.minimum (Np.maximum 0 ((1 - satTermFC1) * kUnSat2_407)) (kunSatFC12 c).
Definition capRise2_416 : R :=
  Np.minimum (Np.maximum 0 ((1 - satTermFC2) * kUnSat3_408)) (kunSatFC23 c).
Definition capRise2_418 : R := Np.minimum capRise2_416 availWater3_392.
Definition w1_427 : R := if bioarea then w1_382 + capRise1 else w1_382.
Definition w2_428 : R :=
  if bioarea then w2_381 - capRise1 + capRise2_418 else w2_381.
Definition w3_429 : R := if bioarea then w3_296 - capRise2_418 else w3_296.
Definition assert_431 : bool := Np.geb w1_427 0.
Definition assert_432 : bool := Np.geb w2_428 0.
Definition assert_433 : bool := Np.geb w3_429 0.

(** Lines 440-460: available water, free capacity and conductivities
    at the start of the percolation loop. *)
Definition availWater1_440 : R := Np.maximum 0 (w1_427 - wres1 c).
Definition availWater2_441 : R := Np.maximum 0 (w2_428 - wres2 c).
Definition availWater3_442 : R := Np.maximum 0 (w3_429 - wres3 c).
Definition capLayer2_445 : R := ws2 c - w2_428.
Definition capLayer3_446 : R := ws3 c - w3_429.
Definition satTerm1_453 : R := clamp01 (availWater1_440 / (ws1 c - wres1 c)).
Definition satTerm2_454 : R := clamp01 (availWater2_441 / (ws2 c - wres2 c)).
Definition satTerm3_455 : R := clamp01 (availWater3_442 / (ws3 c - wres3 c)).
Definition kUnSat1_458 : R := kUnSat (KSat1 c) (lambda1 c) satTerm1_453.
Definition kUnSat2_459 : R := kUnSat (KSat2 c) (lambda2 c) satTerm2_454.
Definition kUnSat3_460 : R := kUnSat (KSat3 c) (lambda3 c) satTerm3_455.

(** Lines 462-463. *)
Definition NoSubSteps : nat := 3.
Definition DtSub : R := 1 / INR NoSubSteps.

(** The variables the loop of lines 484-533 carries from one sub-step to
    the next. *)
Record SubStep := {
  availWater1 : R; availWater2 : R; availWater3 : R;
  capLayer2 : R; capLayer3 : R;
  wtemp1 : R; wtemp2 : R; wtemp3 : R;
  perc1to2 : R; perc2to3 : R; perc3toGW : R
}.

(** Lines 468-476: the loop variables before the first sub-step. *)
Definition loop_init : SubStep :=
  {| availWater1 := availWater1_440;
     availWater2 := availWater2_441;
     availWater3 := availWater3_442;
     capLayer2 := capLayer2_445;
     capLayer3 := capLayer3_446;
     wtemp1 := w1_427; wtemp2 := w2_428; wtemp3 := w3_429;
     perc1to2 := 0; perc2to3 := 0; perc3toGW := 0 |}.

(** Lines 485-521: the body of the loop at index [i].  The first
    sub-step uses the conductivities of lines 458-460, the later ones
    recompute them from the temporary storages. *)
Definition loop_body (s : SubStep) (i : nat) : SubStep :=
  let satTerm1 :=
    clamp01 (Np.maximum 0 (wtemp1 s - wres1 c) / (ws1 c - wres1 c)) in
  let satTerm2 :=
    clamp01 (Np.maximum 0 (wtemp2 s - wres2 c) / (ws2 c - wres2 c)) in
  let satTerm3 :=
    clamp01 (Np.maximum 0 (wtemp3 s - wres3 c) / (ws3 c - wres3 c)) in
  let kUnSat1 :=
    if (0 <? i)%nat then kUnSat (KSat1 c) (lambda1 c) satTerm1 else kUnSat1_458 in
  let kUnSat2 :=
    if (0 <? i)%nat then kUnSat (KSat2 c) (lambda2 c) satTerm2 else kUnSat2_459 in
  let kUnSat3 :=
    if (0 <? i)%nat then kUnSat (KSat3 c) (lambda3 c) satTerm3 else kUnSat3_460 in
  let subperc1to2 :=
    Np.minimum (availWater1 s) (Np.minimum (kUnSat1 * DtSub) (capLayer2 s)) in
  let subperc2to3 :=
    Np.minimum (availWater2 s) (Np.minimum (kUnSat2 * DtSub) (capLayer3 s)) in
  let subperc3toGW :=
    Np.minimum (availWater3 s) (Np.minimum (kUnSat3 * DtSub) (availWater3 s))
    * (1 - capriseindex c) in
  let availWater1' := availWater1 s - subperc1to2 in
  let availWater2' := availWater2 s + subperc1to2 - subperc2to3 in
  let availWater3' := availWater3 s + subperc2to3 - subperc3toGW in
  let wtemp1' := availWater1' + wres1 c in
  let wtemp2' := availWater2' + wres2 c in
  let wtemp3' := availWater3' + wres3 c in
  {| availWater1 := availWater1';
     availWater2 := availWater2';
     availWater3 := availWater3';
     capLayer2 := ws2 c - wtemp2';
     capLayer3 := ws3 c - wtemp3';
     wtemp1 := wtemp1'; wtemp2 := wtemp2'; wtemp3 := wtemp3';
     perc1to2 := perc1to2 s + subperc1to2;
     perc2to3 := perc2to3 s + subperc2to3;
     perc3toGW := perc3toGW s + subperc3toGW |}.

(** [for i in range(NoSubSteps)]. *)
Definition loop_end : SubStep := fold_left loop_body (seq 0 NoSubSteps) loop_init.

(** [perc3toGW] is a full array, filled with 0 outside [bioarea]. *)
Definition perc3toGW_521 : R := if bioarea then perc3toGW loop_end else 0.

(** Lines 551-561: no percolation between the layers in frozen soil;
    the storages take the accumulated fluxes. *)
Definition perc1to2_551 : R := Np.where_ frozen 0 (perc1to2 loop_end).
Definition perc2to3_552 : R := Np.where_ frozen 0 (perc2to3 loop_end).
Definition w1_556 : R := if bioarea then w1_427 - perc1to2_551 else w1_427.
Definition w2_558 : R :=
  if bioarea then w2_428 + perc1to2_551 - perc2to3_552 else w2_428.
Definition w3_560 : R :=
  if bioarea then w3_429 + perc2to3_552 - perc3toGW_521 else w3_429.
Definition assert_557 : bool := Np.geb w1_556 0.
Definition assert_559 : bool := Np.geb w2_558 0.
Definition assert_561 : bool := Np.geb w3_560 0.

(** Line 584. *)
Definition actualET_584 : R :=
  if bioarea
  then actualET c + actBareSoilEvap_314 + openWaterEvap_192 + actTransTotal_302
  else actualET c.

(** Lines 594-600: interflow and groundwater recharge. *)
Definition toGWorInterflow : R := perc3toGW_521 + prefFlow_352.
Definition interflow : R :=
  if bioarea then percolationImp c * toGWorInterflow else 0.
Definition groundwater_recharge : R :=
  if bioarea then (1 - percolationImp c) * toGWorInterflow else 0.

End Assignments.

(** ** The step on the whole array *)

(** What [dynamic] leaves at one position: the storages and
    accumulators of [self.var] after the step and the six returned
    arrays. *)
Record Result := {
  post_w1 : R; post_w2 : R; post_w3 : R; post_topwater : R;
  post_actTransTotal : R; post_actBareSoilEvap : R; post_actualET : R;
  ret_interflow : R;
  ret_directRunoff : R;
  ret_groundwater_recharge : R;
  ret_perc3toGW : R;
  ret_prefFlow : R;
  ret_openWaterEvap : R
}.

Definition result (g : Globals) (c : Cell) : Result :=
  {| post_w1 := w1_556 g c;
     post_w2 := w2_558 g c;
     post_w3 := w3_560 g c;
     post_topwater := topwater_372 g c;
     post_actTransTotal := actTransTotal_302 g c;
     post_actBareSoilEvap := actBareSoilEvap_314 g c;
     post_actualET := actualET_584 g c;
     ret_interflow := interflow g c;
     ret_directRunoff := directRunoff_374 g c;
     ret_groundwater_recharge := groundwater_recharge g c;
     ret_perc3toGW := perc3toGW_521 g c;
     ret_prefFlow := prefFlow_352 g c;
     ret_openWaterEvap := openWaterEvap_192 c |}.

(** The assertions of [dynamic] in program order, each with its source
    line.  Lines 423-425, 478-480 and 555 look again at storages that
    have not changed since the assertion before them. *)
Definition assertions (g : Globals) : list (nat * (Cell -> bool)) :=
  [ (184%nat, assert_184);
    (195%nat, assert_195);
    (216%nat, assert_216); (217%nat, assert_217); (218%nat, assert_218);
    (298%nat, assert_298 g); (299%nat, assert_299 g); (300%nat, assert_300 g);
    (385%nat, assert_385 g); (386%nat, assert_386 g); (387%nat, assert_387 g);
    (403%nat, assert_403 g); (404%nat, assert_404 g);
    (423%nat, assert_385 g); (424%nat, assert_386 g); (425%nat, assert_387 g);
    (431%nat, assert_431 g); (432%nat, assert_432 g); (433%nat, assert_433 g);
    (478%nat, assert_431 g); (479%nat, assert_432 g); (480%nat, assert_433 g);
    (555%nat, assert_431 g);
    (557%nat, assert_557 g); (559%nat, assert_559 g); (561%nat, assert_561 g) ].

Inductive Outcome : Type :=
| Returned (rs : list Result)
| AssertionError (line : nat).

(** The first assertion, in program order, that does not hold at every
    position. *)
Fixpoint first_failed (cells : list Cell) (l : list (nat * (Cell -> bool)))
  : option nat :=
  match l with
  | [] => None
  | (line, holds) :: l' =>
      if forallb holds cells then first_failed cells l' else Some line
  end.

Definition dynamic (g : Globals) (cells : list Cell) : Outcome :=
  match first_failed cells (assertions g) with
  | Some line => AssertionError line
  | None => Returned (map (result g) cells)
  end.

(** ** The water balance of lines 605-613

    The balance check itself belongs to another module; these are the
    four sums the soil module hands to it. *)
Definition influxes (c : Cell) : R :=
  natural_available_water_infiltration c + capillar c
  + actual_irrigation_consumption c.
Definition outfluxes (r : Result) : R :=
  ret_directRunoff r + ret_perc3toGW r + ret_prefFlow r
  + post_actTransTotal r + post_actBareSoilEvap r + ret_openWaterEvap r.
Definition prestorages (c : Cell) : R := w1 c + w2 c + w3 c + topwater c.
Definition poststorages (r : Result) : R :=
  post_w1 r + post_w2 r + post_w3 r + post_topwater r.

(** What the check compares with the tolerance: influxes minus outfluxes
    minus the change in storage. *)
Definition balance (c : Cell) (r : Result) : R :=
  influxes c - outfluxes r - (poststorages r - prestorages c).

(** ** [initial]: the layer thicknesses (lines 143-160)

    The maps [initial] loads before (lines 125-138) reach [dynamic] as
    fields of the cells and as [cPrefFlow]. *)

Section Initial.

(** Helpers of the data container, outside the module: the number of
    cells ([full_compressed]), the copy of a grid map onto the cells
    ([to_HRU] with [fn=None]) and the aggregation of cell values to the
    grid ([to_grid]) for a given [fn]. *)
Variable n_HRU : nat.
Variable to_HRU : list R -> list R.
Inductive AggFn : Type := fn_mean | fn_sum.
Variable to_grid : AggFn -> list R -> list R.

Definition full_compressed (v : R) : list R := repeat v n_HRU.

(** Elementwise binary operation on two arrays. *)
Definition map2 (f : R -> R -> R) (xs ys : list R) : list R :=
  map (fun xy => f (fst xy) (snd xy)) (combine xs ys).

Record Soildepth := {
  soildepth_0 : list R;
  soildepth_1 : list R;
  soildepth_2 : list R;
  grid_soildepth_12 : list R
}.

Definition initial (StorDepth1 StorDepth2 : list R) (soildepth_factor : R)
  : Soildepth :=
  let soildepth0 := full_compressed 0.05 in
  let stordepth1 := to_HRU StorDepth1 in
  let soildepth1_149 :=
    map2 (fun s d0 => Np.maximum 0.05 (s - d0)) stordepth1 soildepth0 in
  let stordepth2 := to_HRU StorDepth2 in
  let soildepth2_152 := map (fun s => Np.maximum 0.05 s) stordepth2 in
  let soildepth1_156 := map (fun d => d * soildepth_factor) soildepth1_149 in
  let soildepth2_157 := map (fun d => d * soildepth_factor) soildepth2_152 in
  {| soildepth_0 := soildepth0;
     soildepth_1 := soildepth1_156;
     soildepth_2 := soildepth2_157;
     grid_soildepth_12 := to_grid fn_mean (map2 Rplus soildepth1_156 soildepth2_157) |}.

End Initial.

(** A cell passes when every assertion holds at its position. *)
Definition passes (g : Globals) (c : Cell) : Prop :=
  forallb (fun a => snd a c) (assertions g) = true.

(** ** Concrete cells *)

Definition thresholds : Globals :=
  {| FrostIndexThreshold := 56; maxtopwater := 0.05; cPrefFlow := 4 |}.

(** A column with fixed soil parameters (layers 1 and 2 are 5 cm thick)
    whose land-use type, storages and forcing are chosen by the caller,
    as are the cap on the capillary rise into layer 1 and the blocked
    fraction. *)

Definition column_with (kfc12 cri : R) (lut : nat) (s1 s2 s3 tw : R)
           (kc frost : R) (naw irr cap owe : R) : Cell :=
  {| land_use_type := lut;
     w1 := s1; w2 := s2; w3 := s3; topwater := tw;
     actTransTotal := 0; actBareSoilEvap := 0; actualET := 0;
     ws1 := 0.025; ws2 := 0.02; ws3 := 0.1;
     wres1 := 0.005; wres2 := 0.005; wres3 := 0.02;
     wfc1 := 0.015; wfc2 := 0.012; wfc3 := 0.06;
     wwp1 := 0.008; wwp2 := 0.007; wwp3 := 0.03;
     KSat1 := 0.5; KSat2 := 0.5; KSat3 := 0.25;
     lambda1 := 1; lambda2 := 1; lambda3 := 1;
     kunSatFC12 := kfc12; kunSatFC23 := 0.001;
     arnoBeta := 0.5;
     adjRoot0 := 0.5; adjRoot1 := 0.3; adjRoot2 := 0.2;
     percolationImp := 0.2;
     cropGroupNumber := 3;
     capriseindex := cri;
     cropKC := kc; EWRef := 0; FrostIndex := frost;
     natural_available_water_infiltration := naw;
     actual_irrigation_consumption := irr;
     capillar := cap;
     openWaterEvap := owe;
     potTranspiration := 0.003;
     potBareSoilEvap := 0.001;
     totalPotET := 0.004 |}.

(** The column with a small cap on the capillary rise into layer 1 and
    a fully blocked percolation to groundwater. *)
Definition column : nat -> R -> R -> R -> R -> R -> R -> R -> R -> R -> R -> Cell :=
  column_with 0.001 1.

(** A column saturated in layers 2 and 3 that receives 0.005 m from
    below. *)
Definition saturated_below : Cell :=
  column 0 0.01 0.02 0.1 0 0.5 0 0 0 0.005 0.

(** ** Well-formed input

    Conditions on the parameters, the storages before the step and the
    forcing of an active cell under which the step is shown to complete.
    They are the invariants the parameters are meant to satisfy, with
    three conditions on the capillary rise between the layers: the cap
    [kunSatFC12] must fit into the water layer 2 holds above its
    residual storage, the cap [kunSatFC23] into the room layer 2 has
    above field capacity, and a frozen cell must have its groundwater
    percolation fully blocked. *)
Record wellformed (g : Globals) (c : Cell) : Prop := {
  wf_wres : 0 <= wres1 c /\ 0 <= wres2 c /\ 0 <= wres3 c;
  wf_wwp : wres1 c <= wwp1 c /\ wres2 c + kunSatFC12 c <= wwp2 c /\
           wres3 c <= wwp3 c;
  wf_wfc : wres2 c < wfc2 c /\ wfc2 c + kunSatFC23 c <= ws2 c;
  wf_w1 : wres1 c <= w1 c <= ws1 c;
  wf_w2 : wres2 c + kunSatFC12 c <= w2 c <= ws2 c;
  wf_w3 : wres3 c <= w3 c <= ws3 c;
  wf_topwater : 0 <= topwater c;
  wf_capacity : 0 < ws1 c + ws2 c;
  wf_KSat : 0 <= KSat1 c /\ 0 <= KSat2 c /\ 0 <= KSat3 c;
  wf_kunSatFC : 0 <= kunSatFC12 c /\ 0 <= kunSatFC23 c;
  wf_arnoBeta : 0 < arnoBeta c;
  wf_cPrefFlow : 0 <= cPrefFlow g;
  wf_capriseindex : 0 <= capriseindex c <= 1;
  wf_frozen : frozen g c = true -> capriseindex c = 1;
  wf_avail : -1e-6 <= availWaterInfiltration_183 c;
  wf_capillar : 0 <= capillar c;
  wf_potBareSoilEvap : 0 <= potBareSoilEvap c
}.

(** The invariant of the percolation loop: the available water of each
    layer is not negative, the free capacities are what is left up to
    saturation, and the accumulated fluxes account for the change of the
    available water since the loop started with [a1], [a2], [a3]. *)
Definition percolating (c : Cell) (a1 a2 a3 : R) (s : SubStep) : Prop :=
  (0 <= availWater1 s /\ 0 <= availWater2 s /\ 0 <= availWater3 s) /\
  (capLayer2 s = ws2 c - wres2 c - availWater2 s /\
   capLayer3 s = ws3 c - wres3 c - availWater3 s) /\
  (0 <= capLayer2 s /\ 0 <= capLayer3 s) /\
  (availWater1 s + perc1to2 s = a1 /\
   availWater2 s - perc1to2 s + perc2to3 s = a2 /\
   availWater3 s - perc2to3 s + perc3toGW s = a3) /\
  (0 <= perc1to2 s /\ 0 <= perc2to3 s /\ 0 <= perc3toGW s) /\
  (capriseindex c = 1 -> perc3toGW s = 0).

(** The input on which a run is shown to return: active cells are
    well-formed, the others hold no negative storage. *)
Definition admissible (g : Globals) (c : Cell) : Prop :=
  if bioarea c then wellformed g c
  else -1e-6 <= availWaterInfiltration_183 c /\
       0 <= topwater c /\ 0 <= w1 c /\ 0 <= w2 c /\ 0 <= w3 c.

(** A forest column to which the caller hands 0.01 m of open-water
    evaporation. *)
Definition forest_with_evaporation : Cell :=
  column_with 0.001 0.25 0 0.012 0.012 0.05 0 0.5 0 0.004 0 0.001 0.01.

(** A flooded paddy column, a forest column and a column outside the
    soil physics. *)
Definition paddy_flooded : Cell :=
  column_with 0.001 0.25 2 0.012 0.012 0.05 0.04 0.8 0 0.02 0 0.001 0.
Definition forest : Cell :=
  column_with 0.001 0.25 0 0.012 0.012 0.05 0 0.5 0 0.004 0 0.001 0.
Definition sealed : Cell :=
  column_with 0.001 0.25 5 0.012 0.012 0.05 0.01 0.5 0 0.004 0 0.001 0.

(** A paddy column that is not flooded (crop coefficient 0.5). *)
Definition paddy_drained : Cell :=
  column_with 0.001 0.25 2 0.012 0.012 0.05 0.04 0.5 0 0.02 0 0.001 0.

(** A flooded paddy column, saturated in all three layers, that
    receives 0.005 m from below. *)
Definition paddy_saturated : Cell :=
  column_with 0.001 0.25 2 0.025 0.02 0.1 0.04 0.8 0 0.02 0 0.005 0.

(** A frozen forest column. *)
Definition forest_frozen : Cell :=
  column_with 0.001 1 0 0.012 0.012 0.05 0 0.5 60 0.004 0 0.001 0.

(** A frozen forest column with a dry layer 1 above a saturated layer 2,
    where the cap on the capillary rise into layer 1 (0.016 m) exceeds
    the water layer 2 holds above its residual storage (0.015 m).  All
    storages are within their bounds before the step. *)
Definition dry_over_saturated : Cell :=
  column_with 0.016 1 0 0.005 0.02 0.02 0 0.5 60 0 0 0 0.

(** Globals with a negative maximum ponding depth. *)
Definition negative_ponding : Globals :=
  {| FrostIndexThreshold := 56; maxtopwater := - 0.01; cPrefFlow := 4 |}.

(** A frozen forest column with a saturated layer 2 above a layer 3 at
    its residual storage; nothing rises between the layers and the
    percolation to groundwater is not blocked. *)
Definition frozen_draining : Cell :=
  column_with 0 0 0 0.005 0.02 0.02 0 0.5 60 0 0 0 0.

(** ** The water balance of lines 615-622

    The second check adds the evaporation of snow and of intercepted
    water to the influxes and compares with runoff, interflow, recharge
    and the accumulated evapotranspiration.  [snowEvap] and
    [interceptEvap] are arrays of [self.var] that [dynamic] reads nowhere
    else; their values at the cell are arguments here. *)
Definition influxes_617 (c : Cell) (snowEvap interceptEvap : R) : R :=
  natural_available_water_infiltration c + capillar c
  + actual_irrigation_consumption c + snowEvap + interceptEvap.
Definition outfluxes_618 (r : Result) : R :=
  ret_directRunoff r + ret_interflow r + ret_groundwater_recharge r
  + post_actualET r.
Definition balance_617 (c : Cell) (snowEvap interceptEvap : R) (r : Result) : R :=
  influxes_617 c snowEvap interceptEvap - outfluxes_618 r
  - (poststorages r - prestorages c).

(** A frozen forest column whose two upper layers are saturated. *)
Definition frozen_saturated : Cell :=
  column_with 0.001 1 0 0.025 0.02 0.05 0 0.5 60 0.004 0 0 0.

(** A column outside the soil physics that holds negative ponded
    water. *)
Definition sealed_negative : Cell :=
  column_with 0.001 0.25 5 0.012 0.012 0.05 (- 0.01) 0.5 0 0.004 0 0.001 0.

(** * Properties *)

(** ** Facts about the primitives *)

Lemma gtb_true (x y : R) : y < x -> Np.gtb x y = true.
Proof. intros Hlt. unfold Np.gtb. destruct (Rlt_dec y x); [reflexivity | lra]. Qed.

Lemma gtb_false (x y : R) : x <= y -> Np.gtb x y = false.
Proof. intros Hle. unfold Np.gtb. destruct (Rlt_dec y x); [lra | reflexivity]. Qed.

Lemma gtb_spec (x y : R) : Np.gtb x y = true <-> y < x.
Proof.
  unfold Np.gtb. destruct (Rlt_dec y x); split; intros;
    try reflexivity; try discriminate; lra.
Qed.

Lemma ltb_true (x y : R) : x < y -> Np.ltb x y = true.
Proof. intros Hlt. unfold Np.ltb. destruct (Rlt_dec x y); [reflexivity | lra]. Qed.

Lemma ltb_false (x y : R) : y <= x -> Np.ltb x y = false.
Proof. intros Hle. unfold Np.ltb. destruct (Rlt_dec x y); [lra | reflexivity]. Qed.

Lemma geb_spec (x y : R) : Np.geb x y = true <-> y <= x.
Proof.
  unfold Np.geb. destruct (Rle_dec y x); split; intros;
    try reflexivity; try discriminate; lra.
Qed.

Lemma leb_spec (x y : R) : Np.leb x y = true <-> x <= y.
Proof.
  unfold Np.leb. destruct (Rle_dec x y); split; intros;
    try reflexivity; try discriminate; lra.
Qed.

(** Case analysis on every comparison a goal about [maximum], [minimum],
    [where_] and the boolean comparisons hides, and linear arithmetic in
    each case. *)
Ltac np_unfold :=
  unfold clamp01, Np.maximum, Np.minimum, Np.where_,
         Np.gtb, Np.ltb, Np.leb, Np.geb, Rmax, Rmin in *.

Ltac np_cases :=
  repeat match goal with
    | |- context [Rle_dec ?a ?b] => destruct (Rle_dec a b)
    | |- context [Rlt_dec ?a ?b] => destruct (Rlt_dec a b)
    | H : context [Rle_dec ?a ?b] |- _ => destruct (Rle_dec a b)
    | H : context [Rlt_dec ?a ?b] |- _ => destruct (Rlt_dec a b)
    end.

Ltac np_lra := np_unfold; np_cases; try discriminate; try reflexivity; try lra.

Lemma maximum_l (x y : R) : x <= Np.maximum x y.
Proof. np_lra. Qed.

Lemma maximum_r (x y : R) : y <= Np.maximum x y.
Proof. np_lra. Qed.

Lemma minimum_l (x y : R) : Np.minimum x y <= x.
Proof. np_lra. Qed.

Lemma minimum_r (x y : R) : Np.minimum x y <= y.
Proof. np_lra. Qed.

Lemma minimum_glb (x y z : R) : z <= x -> z <= y -> z <= Np.minimum x y.
Proof. intros; np_lra. Qed.

Lemma clamp01_bounds (x : R) : 0 <= clamp01 x <= 1.
Proof. np_lra. Qed.

(** *** Powers *)

Lemma power_nonneg (x y : R) : 0 <= Np.power x y.
Proof.
  unfold Np.power. destruct (Rlt_dec 0 x) as [Hx | Hx].
  - unfold Rpower. left. apply exp_pos.
  - destruct (Req_dec_T y 0); lra.
Qed.

Lemma power_one (y : R) : Np.power 1 y = 1.
Proof.
  unfold Np.power. destruct (Rlt_dec 0 1) as [_ | Hx]; [| lra].
  unfold Rpower. rewrite ln_1, Rmult_0_r. apply exp_0.
Qed.

Lemma power_zero (y : R) : 0 < y -> Np.power 0 y = 0.
Proof.
  intros Hy. unfold Np.power. destruct (Rlt_dec 0 0) as [Hx | _]; [lra |].
  destruct (Req_dec_T y 0); [lra | reflexivity].
Qed.

Lemma power_le_one (x y : R) : x <= 1 -> 0 <= y -> Np.power x y <= 1.
Proof.
  intros Hx Hy. unfold Np.power. destruct (Rlt_dec 0 x) as [Hpos | Hneg].
  - unfold Rpower. rewrite <- exp_0.
    destruct Hx as [Hx | Hx].
    + destruct Hy as [Hy | Hy].
      * left. apply exp_increasing.
        assert (Hln : ln x < 0) by (rewrite <- ln_1; apply ln_increasing; lra).
        nra.
      * subst y. rewrite Rmult_0_l. lra.
    + subst x. rewrite ln_1, Rmult_0_r. lra.
  - destruct (Req_dec_T y 0); lra.
Qed.

Lemma kUnSat_nonneg (K lam s : R) : 0 <= K -> 0 <= kUnSat K lam s.
Proof.
  intros HK. unfold kUnSat, Np.square.
  apply Rmult_le_pos; [apply Rmult_le_pos; [exact HK | apply sqrt_pos] |].
  apply Rle_0_sqr.
Qed.

Lemma kUnSat_saturated (K lam : R) : 0 < lam -> kUnSat K lam 1 = K.
Proof.
  intros Hlam. unfold kUnSat, Np.square.
  rewrite sqrt_1, power_one.
  replace (1 - 1) with 0 by lra.
  rewrite power_zero.
  - lra.
  - apply Rdiv_lt_0_compat; lra.
Qed.

Lemma kUnSat_dry (K lam : R) : kUnSat K lam 0 = 0.
Proof. unfold kUnSat. rewrite sqrt_0. lra. Qed.

(** ** When [dynamic] returns *)

Lemma first_failed_none (cells : list Cell) (l : list (nat * (Cell -> bool))) :
  first_failed cells l = None <->
  Forall (fun c => forallb (fun a => snd a c) l = true) cells.
Proof.
  induction l as [| [line holds] l IH]; simpl.
  - split; [intros _ | reflexivity].
    apply Forall_forall. reflexivity.
  - destruct (forallb holds cells) eqn:Hall.
    + rewrite IH. rewrite forallb_forall in Hall.
      rewrite !Forall_forall. split; intros H c Hc.
      * rewrite (Hall c Hc). simpl. apply H, Hc.
      * specialize (H c Hc). apply andb_true_iff in H. apply H.
    + split; [discriminate |].
      intros H. exfalso.
      assert (Htrue : forallb holds cells = true).
      { apply forallb_forall. intros c Hc.
        rewrite Forall_forall in H. specialize (H c Hc).
        apply andb_true_iff in H. apply H. }
      congruence.
Qed.

Lemma dynamic_Returned (g : Globals) (cells : list Cell) (rs : list Result) :
  dynamic g cells = Returned rs <->
  Forall (passes g) cells /\ rs = map (result g) cells.
Proof.
  unfold dynamic, passes.
  destruct (first_failed cells (assertions g)) eqn:Hff.
  - split; [discriminate |].
    intros [Hall _]. apply first_failed_none in Hall. congruence.
  - apply first_failed_none in Hff. split.
    + intros Heq. injection Heq as <-. split; [exact Hff | reflexivity].
    + intros [_ ->]. reflexivity.
Qed.

(** The result at a position of a run that returned. *)
Lemma dynamic_nth (g : Globals) (cells : list Cell) (rs : list Result)
      (i : nat) (c : Cell) :
  dynamic g cells = Returned rs ->
  nth_error cells i = Some c ->
  passes g c /\ nth_error rs i = Some (result g c).
Proof.
  intros Hrun Hc. apply dynamic_Returned in Hrun as [Hall ->]. split.
  - rewrite Forall_forall in Hall. apply Hall. eapply nth_error_In, Hc.
  - rewrite nth_error_map, Hc. reflexivity.
Qed.

(** The assertions the proofs below rely on. *)
Lemma passes_184 (g : Globals) (c : Cell) :
  passes g c -> -1e-6 <= availWaterInfiltration_183 c.
Proof.
  unfold passes, assertions. simpl. rewrite !andb_true_iff.
  intros H. destruct H as [H _]. unfold assert_184 in H.
  apply geb_spec in H. lra.
Qed.

Lemma passes_195 (g : Globals) (c : Cell) : passes g c -> 0 <= topwater_193 c.
Proof.
  unfold passes, assertions. simpl. rewrite !andb_true_iff.
  intros H. destruct H as (_ & H & _). unfold assert_195 in H.
  apply geb_spec in H. exact H.
Qed.

(** The first assertion fails as soon as one cell is out of tolerance. *)
Lemma dynamic_184 (g : Globals) (cells : list Cell) (c : Cell) :
  In c cells -> assert_184 c = false -> dynamic g cells = AssertionError 184.
Proof.
  intros Hin Hfail. unfold dynamic, assertions. simpl.
  destruct (forallb assert_184 cells) eqn:Hall; [| reflexivity].
  rewrite forallb_forall in Hall. rewrite (Hall c Hin) in Hfail. discriminate.
Qed.

(** ** Phase 2: capillary rise from groundwater (C4) *)

Lemma cascade_conserves (c : Cell) :
  bioarea c = true ->
  w1_214 c + w2_211 c + w3_208 c + saverunofffromGW c
  = w1 c + w2 c + w3 c + capillar c.
Proof.
  intros Hbio.
  unfold saverunofffromGW, w1_214, w1_210, w2_211, w2_207, w3_208, w3_205.
  rewrite Hbio. np_lra.
Qed.

Lemma cascade_capped (c : Cell) :
  bioarea c = true ->
  w1_214 c <= ws1 c /\ w2_211 c <= ws2 c /\ w3_208 c <= ws3 c.
Proof.
  intros Hbio. unfold w1_214, w2_211, w3_208. rewrite Hbio.
  repeat split; apply minimum_l.
Qed.

(** C4 does not hold as stated: layer 3 is full and receives 0.005 m,
    yet layer 2, full as well, keeps none of it; the water goes on to
    layer 1. *)
Lemma saturated_below_passes_on :
  bioarea saturated_below = true /\
  w3 saturated_below = ws3 saturated_below /\
  capillar saturated_below = 0.005 /\
  w3_208 saturated_below = ws3 saturated_below /\
  w2_211 saturated_below <> w2 saturated_below + 0.005 /\
  w1_214 saturated_below = w1 saturated_below + 0.005.
Proof.
  unfold w1_214, w1_210, w2_211, w2_207, w3_208, w3_205, bioarea.
  simpl. repeat split; np_lra.
Qed.

(** The three hand-overs of the cascade: what a layer holds above its
    capacity goes to the layer above, and from layer 1 to
    [saverunofffromGW]. *)
Lemma cascade_steps (c : Cell) :
  bioarea c = true ->
  (w2_207 c = w2 c + Np.maximum 0 (w3_205 c - ws3 c) /\
   w3_208 c = Np.minimum (ws3 c) (w3_205 c)) /\
  (w1_210 c = w1 c + Np.maximum 0 (w2_207 c - ws2 c) /\
   w2_211 c = Np.minimum (ws2 c) (w2_207 c)) /\
  (saverunofffromGW c = Np.maximum 0 (w1_210 c - ws1 c) /\
   w1_214 c = Np.minimum (ws1 c) (w1_210 c)).
Proof.
  intros Hbio.
  unfold saverunofffromGW, w1_214, w1_210, w2_211, w2_207, w3_208.
  rewrite Hbio.
  generalize (w3_205 c). intros x.
  repeat split; np_lra.
Qed.

(** C4, amended: on an active cell the capillary rise is added to layer
    3; what exceeds [ws3] goes to layer 2, what then exceeds [ws2] to
    layer 1 and what then exceeds [ws1] to [saverunofffromGW].  The
    phase conserves the water and leaves each layer at or below its
    capacity.  For a cell with [w3 = ws3] receiving 0.005 m, layer 3
    stays at [ws3] and the whole 0.005 m is handed to layer 2, which
    keeps [min(ws2, w2 + 0.005)] and passes the part above [ws2] on to
    layer 1: it keeps all of it, and layer 1 receives nothing, when
    [w2 + 0.005 <= ws2]. *)
Theorem capillary_cascade (c : Cell) :
  bioarea c = true ->
  w3_205 c = w3 c + capillar c /\
  w1_214 c + w2_211 c + w3_208 c + saverunofffromGW c
  = w1 c + w2 c + w3 c + capillar c /\
  (w1_214 c <= ws1 c /\ w2_211 c <= ws2 c /\ w3_208 c <= ws3 c) /\
  (w3 c = ws3 c -> capillar c = 0.005 ->
   w3_208 c = ws3 c /\
   w2_207 c = w2 c + 0.005 /\
   w2_211 c = Np.minimum (ws2 c) (w2 c + 0.005) /\
   w1_210 c = w1 c + Np.maximum 0 (w2 c + 0.005 - ws2 c) /\
   (w2 c + 0.005 <= ws2 c ->
    w2_211 c = w2 c + 0.005 /\ w1_210 c = w1 c /\
    w1_214 c = Np.minimum (ws1 c) (w1 c))) /\
  ((w2_207 c = w2 c + Np.maximum 0 (w3_205 c - ws3 c) /\
    w3_208 c = Np.minimum (ws3 c) (w3_205 c)) /\
   (w1_210 c = w1 c + Np.maximum 0 (w2_207 c - ws2 c) /\
    w2_211 c = Np.minimum (ws2 c) (w2_207 c)) /\
   (saverunofffromGW c = Np.maximum 0 (w1_210 c - ws1 c) /\
    w1_214 c = Np.minimum (ws1 c) (w1_210 c))).
Proof.
  intros Hbio.
  pose proof (cascade_steps c Hbio) as Hsteps.
  destruct Hsteps as ((S207 & S208) & (S210 & S211) & (Ssave & S214)).
  split; [| split; [| split; [| split]]].
  - unfold w3_205. rewrite Hbio. reflexivity.
  - apply cascade_conserves, Hbio.
  - apply cascade_capped, Hbio.
  - intros Hfull Hcap.
    assert (H205 : w3_205 c = ws3 c + 0.005).
    { unfold w3_205. rewrite Hbio, Hfull, Hcap. reflexivity. }
    assert (H207 : w2_207 c = w2 c + 0.005).
    { rewrite S207, H205. np_lra. }
    assert (H210 : w1_210 c = w1 c + Np.maximum 0 (w2 c + 0.005 - ws2 c)).
    { rewrite S210, H207. reflexivity. }
    split; [| split; [exact H207 | split; [| split; [exact H210 |]]]].
    + rewrite S208, H205. np_lra.
    + rewrite S211, H207. reflexivity.
    + intros Hroom.
      assert (H210' : w1_210 c = w1 c) by (rewrite H210; np_lra).
      split; [| split; [exact H210' |]].
      * rewrite S211, H207. np_lra.
      * rewrite S214, H210'. reflexivity.
  - repeat split; assumption.
Qed.

Lemma capillary_cascade_witness :
  w2_211 (column 0 0.01 0.01 0.1 0 0.5 0 0 0 0.005 0) = 0.01 + 0.005.
Proof.
  assert (Hbio : bioarea (column 0 0.01 0.01 0.1 0 0.5 0 0 0 0.005 0) = true)
    by reflexivity.
  destruct (capillary_cascade _ Hbio) as (_ & _ & _ & Hpart & _).
  destruct (Hpart eq_refl eq_refl) as (_ & _ & _ & _ & Hroom).
  apply Hroom. simpl. lra.
Defined.

(** ** Potential infiltration (C6) *)

Lemma arno_potInf_factored (store satAreaFrac potBeta : R) :
  arno_potInf store satAreaFrac potBeta
  = store * Np.power (1 - satAreaFrac) potBeta.
Proof. unfold arno_potInf. ring. Qed.

(** C6: for a store that is not negative, a saturated fraction in [0,1]
    and a positive exponent, the expression of line 336,
    [store - store * (1 - (1 - satAreaFrac) ** potBeta)], equals
    [store * (1 - satAreaFrac) ** potBeta] in real arithmetic. *)
Theorem potInf_simplifies (store satAreaFrac potBeta : R) :
  0 <= store -> 0 <= satAreaFrac <= 1 -> 0 < potBeta ->
  arno_potInf store satAreaFrac potBeta
  = store * Np.power (1 - satAreaFrac) potBeta.
Proof. intros _ _ _. apply arno_potInf_factored. Qed.

Lemma potInf_simplifies_witness :
  arno_potInf 0.03 0.25 3 = 0.03 * Np.power (1 - 0.25) 3.
Proof. apply potInf_simplifies; lra. Defined.

(** The same on a cell: what line 336 assigns to [potInf]. *)
Lemma potInf_cell (g : Globals) (c : Cell) :
  potInf g c = store c * Np.power (1 - satAreaFrac_332 g c) (potBeta c).
Proof. unfold potInf. apply arno_potInf_factored. Qed.

(** ** Layer thicknesses (C7) *)

Lemma nth_error_map2 (f : R -> R -> R) (xs ys : list R) (i : nat) (x y : R) :
  nth_error xs i = Some x -> nth_error ys i = Some y ->
  nth_error (map2 f xs ys) i = Some (f x y).
Proof.
  revert ys i. induction xs as [| x0 xs IH]; intros ys i Hx Hy.
  - destruct i; discriminate.
  - destruct ys as [| y0 ys]; [destruct i; discriminate |].
    destruct i as [| i]; simpl in *.
    + injection Hx as ->. injection Hy as ->. reflexivity.
    + apply IH; assumption.
Qed.

Lemma nth_error_repeat_lt (v : R) (n i : nat) :
  (i < n)%nat -> nth_error (repeat v n) i = Some v.
Proof.
  revert i. induction n as [| n IH]; intros i Hi; [lia |].
  destruct i as [| i]; simpl; [reflexivity | apply IH; lia].
Qed.

(** C7: at every cell position [i], layer 1 is 0.05 thick, layer 2 is
    [max(0.05, stordepth1 - 0.05)] times the calibration factor, layer 3
    is [max(0.05, stordepth2)] times the same factor, and the grid
    receives the mean, taken by [to_grid], of the sum of the thicknesses
    of layers 2 and 3. *)
Theorem initial_thickness
        (n_HRU : nat) (to_HRU : list R -> list R)
        (to_grid : AggFn -> list R -> list R)
        (StorDepth1 StorDepth2 : list R) (soildepth_factor : R)
        (i : nat) (s1 s2 : R) :
  (i < n_HRU)%nat ->
  nth_error (to_HRU StorDepth1) i = Some s1 ->
  nth_error (to_HRU StorDepth2) i = Some s2 ->
  let r := initial n_HRU to_HRU to_grid StorDepth1 StorDepth2 soildepth_factor in
  nth_error (soildepth_0 r) i = Some 0.05 /\
  nth_error (soildepth_1 r) i
  = Some (Rmax 0.05 (s1 - 0.05) * soildepth_factor) /\
  nth_error (soildepth_2 r) i = Some (Rmax 0.05 s2 * soildepth_factor) /\
  grid_soildepth_12 r
  = to_grid fn_mean (map2 Rplus (soildepth_1 r) (soildepth_2 r)).
Proof.
  intros Hi H1 H2. simpl. unfold full_compressed.
  pose proof (nth_error_repeat_lt 0.05 n_HRU i Hi) as H0.
  repeat split.
  - exact H0.
  - rewrite nth_error_map.
    rewrite (nth_error_map2 _ _ _ i s1 0.05 H1 H0). reflexivity.
  - rewrite !nth_error_map, H2. reflexivity.
Qed.

Lemma initial_thickness_witness :
  nth_error
    (soildepth_1 (initial 2 (fun m => m) (fun _ d => [fold_right Rplus 0 d / 2])
                          [0.3; 0.07] [1; 0.01] 2)) 1
  = Some (Rmax 0.05 (0.07 - 0.05) * 2).
Proof.
  apply (initial_thickness 2 (fun m => m) (fun _ d => [fold_right Rplus 0 d / 2])
                           [0.3; 0.07] [1; 0.01] 2 1 0.07 0.01).
  - lia.
  - reflexivity.
  - reflexivity.
Defined.

(** ** Available water below zero (C8) *)

(** A failed run names an assertion of the list that some cell fails. *)
Lemma first_failed_line (cells : list Cell) (l : list (nat * (Cell -> bool)))
      (line : nat) :
  first_failed cells l = Some line ->
  exists holds, In (line, holds) l /\ forallb holds cells = false.
Proof.
  induction l as [| [n holds] l IH]; simpl; [discriminate |].
  destruct (forallb holds cells) eqn:Hall.
  - intros Hl. destruct (IH Hl) as (h & Hh & Hf).
    exists h. split; [right; exact Hh | exact Hf].
  - intros Hl. injection Hl as ->.
    exists holds. split; [left; reflexivity | exact Hall].
Qed.

(** Within the tolerance everywhere, the run gets past line 184. *)
Lemma dynamic_past_184 (g : Globals) (cells : list Cell) :
  (forall c, In c cells -> -1e-6 <= availWaterInfiltration_183 c) ->
  dynamic g cells <> AssertionError 184.
Proof.
  intros Htol.
  assert (H184 : forallb assert_184 cells = true).
  { apply forallb_forall. intros c Hc. unfold assert_184.
    apply geb_spec. specialize (Htol c Hc). lra. }
  unfold dynamic.
  destruct (first_failed cells (assertions g)) as [line |] eqn:Hff;
    [| discriminate].
  intros Heq. injection Heq as ->.
  apply first_failed_line in Hff. destruct Hff as (holds & Hin & Hfail).
  unfold assertions in Hin. simpl in Hin.
  destruct Hin as [Hin | Hin].
  - injection Hin as <-. rewrite H184 in Hfail. discriminate.
  - repeat (destruct Hin as [Hin | Hin]; [discriminate |]).
    exact Hin.
Qed.

(** C8: a cell whose available infiltration water (natural available
    water plus irrigation consumption) is below -1e-6 stops [dynamic] at
    the assertion of line 184, the first statement after the index sets
    and before the paddy phase; when no cell is below -1e-6 the run does
    not stop there.  A value that is negative but not below -1e-6 passes
    the assertion and becomes 0 on line 185, and 0 is what the paddy
    phase and every later phase read; a value that is not negative is
    kept.  The correction writes to the sum only, a fresh array: the
    two inputs it was computed from are what they were, and the influx
    that the balance check of line 608 reads from them is still their
    negative sum, below what the corrected value would give. *)
Theorem availWaterInfiltration_tolerance (g : Globals) (cells : list Cell) (c : Cell) :
  In c cells ->
  (availWaterInfiltration_183 c < -1e-6 -> dynamic g cells = AssertionError 184) /\
  (-1e-6 <= availWaterInfiltration_183 c < 0 -> availWaterInfiltration_185 c = 0) /\
  (0 <= availWaterInfiltration_183 c ->
   availWaterInfiltration_185 c = availWaterInfiltration_183 c) /\
  ((forall c', In c' cells -> -1e-6 <= availWaterInfiltration_183 c') ->
   dynamic g cells <> AssertionError 184) /\
  (-1e-6 <= availWaterInfiltration_183 c < 0 ->
   assert_184 c = true /\
   topwater_189 c = topwater c /\
   availWaterInfiltration_198 c
   = (if paddy_irrigated_land c then topwater_193 c else 0) /\
   influxes c = availWaterInfiltration_183 c + capillar c /\
   influxes c < availWaterInfiltration_185 c + capillar c).
Proof.
  intros Hin.
  assert (Hzero : -1e-6 <= availWaterInfiltration_183 c < 0 ->
                  availWaterInfiltration_185 c = 0).
  { intros [_ Hneg]. unfold availWaterInfiltration_185.
    rewrite ltb_true by exact Hneg. reflexivity. }
  split; [| split; [exact Hzero | split; [| split]]].
  - intros Hlow. apply (dynamic_184 g cells c Hin).
    unfold assert_184. np_lra.
  - intros Hpos. unfold availWaterInfiltration_185.
    rewrite ltb_false by exact Hpos. reflexivity.
  - apply dynamic_past_184.
  - intros Hnoise. pose proof (Hzero Hnoise) as H185.
    destruct Hnoise as [Htol Hneg].
    split; [| split; [| split; [| split]]].
    + unfold assert_184. apply geb_spec. lra.
    + unfold topwater_189. rewrite H185.
      destruct (paddy_irrigated_land c); [| reflexivity].
      destruct (flooded c); simpl; lra.
    + unfold availWaterInfiltration_198. rewrite H185.
      destruct (paddy_irrigated_land c); [| reflexivity].
      destruct (flooded c); simpl; lra.
    + unfold influxes, availWaterInfiltration_183. ring.
    + rewrite H185. unfold influxes, availWaterInfiltration_183 in *. lra.
Qed.

Lemma availWaterInfiltration_tolerance_witness :
  dynamic thresholds [column 0 0.01 0.01 0.05 0 0.5 0 (-0.001) 0 0 0]
  = AssertionError 184 /\
  dynamic thresholds [column 0 0.01 0.01 0.05 0 0.5 0 (-5e-7) 0 0 0]
  <> AssertionError 184 /\
  availWaterInfiltration_185 (column 0 0.01 0.01 0.05 0 0.5 0 (-5e-7) 0 0 0) = 0.
Proof.
  split.
  - refine (proj1 (availWaterInfiltration_tolerance thresholds _ _ _) _).
    + left. reflexivity.
    + unfold availWaterInfiltration_183. simpl. lra.
  - destruct (availWaterInfiltration_tolerance thresholds
                [column 0 0.01 0.01 0.05 0 0.5 0 (-5e-7) 0 0 0]
                (column 0 0.01 0.01 0.05 0 0.5 0 (-5e-7) 0 0 0)
                (or_introl eq_refl))
      as (_ & Hzero & _ & Hpast & _).
    split.
    + apply Hpast. intros c' [<- | []].
      unfold availWaterInfiltration_183. simpl. lra.
    + apply Hzero. unfold availWaterInfiltration_183. simpl. lra.
Defined.

(** ** Frozen soil (C3) *)

Lemma frozen_spec (g : Globals) (c : Cell) :
  frozen g c = true <-> FrostIndexThreshold g < FrostIndex c.
Proof. unfold frozen. apply gtb_spec. Qed.

Section Frozen.

Variable g : Globals.
Variable c : Cell.
Hypothesis Hfrozen : frozen g c = true.

Lemma frozen_TaMax : TaMax_286 g c = 0.
Proof. unfold TaMax_286. rewrite Hfrozen. reflexivity. Qed.

Lemma frozen_ta : ta1 g c = 0 /\ ta2 g c = 0 /\ ta3 g c = 0.
Proof.
  unfold ta1, ta2, ta3. rewrite frozen_TaMax, !Rmult_0_l.
  repeat split; np_lra.
Qed.

Lemma frozen_actBareSoilEvap : bioarea c = true -> actBareSoilEvap_314 g c = 0.
Proof.
  intros Hbio. unfold actBareSoilEvap_314, actBareSoilEvap_311.
  rewrite Hbio, Hfrozen. simpl.
  destruct (paddy_irrigated_land c); [| reflexivity].
  destruct (Np.gtb (topwater_193 c) 0); reflexivity.
Qed.

Lemma frozen_prefFlow : prefFlow_352 g c = 0.
Proof.
  unfold prefFlow_352, prefFlow_348, prefFlow_347, prefFlow_346.
  rewrite Hfrozen.
  destruct (bioarea c); destruct (paddy_irrigated_land c); simpl; lra.
Qed.

Lemma frozen_infiltration : infiltration_360 g c = 0.
Proof.
  unfold infiltration_360, infiltration_358. rewrite Hfrozen.
  destruct (bioarea c); reflexivity.
Qed.

Lemma frozen_perc : perc1to2_551 g c = 0 /\ perc2to3_552 g c = 0.
Proof. unfold perc1to2_551, perc2to3_552. rewrite Hfrozen. split; reflexivity. Qed.

End Frozen.

(** C3: on an active cell whose frost index exceeds the threshold, the
    three transpiration extractions and their total, the bare-soil
    evaporation, the preferential flow, the infiltration and the
    percolation from layer 1 to 2 and from layer 2 to 3 are all exactly
    zero. *)
Theorem frost_gating (g : Globals) (c : Cell) :
  bioarea c = true ->
  FrostIndexThreshold g < FrostIndex c ->
  (ta1 g c = 0 /\ ta2 g c = 0 /\ ta3 g c = 0) /\
  post_actTransTotal (result g c) = 0 /\
  post_actBareSoilEvap (result g c) = 0 /\
  ret_prefFlow (result g c) = 0 /\
  infiltration_360 g c = 0 /\
  perc1to2_551 g c = 0 /\
  perc2to3_552 g c = 0.
Proof.
  intros Hbio Hfrost. apply frozen_spec in Hfrost.
  pose proof (frozen_ta g c Hfrost) as (H1 & H2 & H3).
  pose proof (frozen_perc g c Hfrost) as (H12 & H23).
  split; [auto |]. simpl. repeat split.
  - unfold actTransTotal_302. rewrite Hbio, H1, H2, H3. lra.
  - apply frozen_actBareSoilEvap; assumption.
  - apply frozen_prefFlow; assumption.
  - apply frozen_infiltration; assumption.
  - exact H12.
  - exact H23.
Qed.

(** ** Cells outside the soil physics (C9) *)

Lemma outside_masks (c : Cell) :
  (4 <= land_use_type c)%nat ->
  bioarea c = false /\ paddy_irrigated_land c = false.
Proof.
  intros Hlut. unfold bioarea, paddy_irrigated_land. split.
  - apply Nat.ltb_ge. exact Hlut.
  - apply Nat.eqb_neq. lia.
Qed.

(** Reading one masked assignment outside its mask. *)
Ltac outside Hbio Hpaddy :=
  repeat (rewrite ?Hbio, ?Hpaddy; cbv iota;
          match goal with
          | |- context [w1_556] => unfold w1_556
          | |- context [w1_427] => unfold w1_427
          | |- context [w1_382] => unfold w1_382
          | |- context [w1_380] => unfold w1_380
          | |- context [w1_316] => unfold w1_316
          | |- context [w1_294] => unfold w1_294
          | |- context [w1_214] => unfold w1_214
          | |- context [w1_210] => unfold w1_210
          | |- context [w2_558] => unfold w2_558
          | |- context [w2_428] => unfold w2_428
          | |- context [w2_381] => unfold w2_381
          | |- context [w2_295] => unfold w2_295
          | |- context [w2_211] => unfold w2_211
          | |- context [w2_207] => unfold w2_207
          | |- context [w3_560] => unfold w3_560
          | |- context [w3_429] => unfold w3_429
          | |- context [w3_296] => unfold w3_296
          | |- context [w3_208] => unfold w3_208
          | |- context [w3_205] => unfold w3_205
          | |- context [topwater_372] => unfold topwater_372
          | |- context [topwater_367] => unfold topwater_367
          | |- context [topwater_193] => unfold topwater_193
          | |- context [topwater_189] => unfold topwater_189
          | |- context [directRunoff_374] => unfold directRunoff_374
          | |- context [directRunoff_370] => unfold directRunoff_370
          | |- context [directRunoff_363] => unfold directRunoff_363
          | |- context [prefFlow_352] => unfold prefFlow_352
          | |- context [prefFlow_348] => unfold prefFlow_348
          | |- context [prefFlow_347] => unfold prefFlow_347
          | |- context [prefFlow_346] => unfold prefFlow_346
          | |- context [interflow] => unfold interflow
          | |- context [groundwater_recharge] => unfold groundwater_recharge
          | |- context [perc3toGW_521] => unfold perc3toGW_521
          end);
  rewrite ?Hbio, ?Hpaddy; cbv iota.

Lemma outside_untouched (g : Globals) (c : Cell) :
  (4 <= land_use_type c)%nat ->
  (w1_556 g c = w1 c /\ w2_558 g c = w2 c /\ w3_560 g c = w3 c /\
   topwater_372 g c = topwater c) /\
  (w1_214 c = w1 c /\ w2_211 c = w2 c /\ w3_208 c = w3 c /\
   w1_294 g c = w1 c /\ w2_295 g c = w2 c /\ w3_296 g c = w3 c /\
   w1_382 g c = w1 c /\ w2_381 g c = w2 c /\
   w1_427 g c = w1 c /\ w2_428 g c = w2 c /\ w3_429 g c = w3 c /\
   topwater_193 c = topwater c).
Proof.
  intros Hlut. destruct (outside_masks c Hlut) as [Hbio Hpaddy].
  repeat split; outside Hbio Hpaddy; reflexivity.
Qed.

Lemma outside_zero (g : Globals) (c : Cell) :
  (4 <= land_use_type c)%nat ->
  interflow g c = 0 /\ directRunoff_374 g c = 0 /\
  groundwater_recharge g c = 0 /\ perc3toGW_521 g c = 0 /\
  prefFlow_352 g c = 0.
Proof.
  intros Hlut. destruct (outside_masks c Hlut) as [Hbio Hpaddy].
  repeat split; outside Hbio Hpaddy; reflexivity.
Qed.

(** C9: in a run that returns, a cell whose land-use type is 4 or more
    keeps its three storages and its ponded water, and its entries in
    the returned interflow, direct runoff, groundwater recharge,
    percolation to groundwater and preferential flow are zero. *)
Theorem outside_bioarea_frame
        (g : Globals) (cells : list Cell) (rs : list Result) (i : nat) (c : Cell) :
  dynamic g cells = Returned rs ->
  nth_error cells i = Some c ->
  (4 <= land_use_type c)%nat ->
  exists r,
    nth_error rs i = Some r /\
    (post_w1 r = w1 c /\ post_w2 r = w2 c /\ post_w3 r = w3 c /\
     post_topwater r = topwater c) /\
    (ret_interflow r = 0 /\ ret_directRunoff r = 0 /\
     ret_groundwater_recharge r = 0 /\ ret_perc3toGW r = 0 /\
     ret_prefFlow r = 0).
Proof.
  intros Hrun Hc Hlut.
  destruct (dynamic_nth g cells rs i c Hrun Hc) as [_ Hr].
  exists (result g c). split; [exact Hr |]. simpl. split.
  - apply outside_untouched, Hlut.
  - apply outside_zero, Hlut.
Qed.

(** ** The infiltration capacity never exceeds the free capacity *)

Lemma Rpower_le_one (x y : R) : 0 < x <= 1 -> 0 <= y -> Rpower x y <= 1.
Proof.
  intros [Hpos Hle] Hy.
  pose proof (power_le_one x y Hle Hy) as H.
  unfold Np.power in H. destruct (Rlt_dec 0 x); [exact H | lra].
Qed.

Lemma arno_potInf_nonneg (store satAreaFrac potBeta : R) :
  0 <= store -> 0 <= arno_potInf store satAreaFrac potBeta.
Proof.
  intros Hs. rewrite arno_potInf_factored.
  apply Rmult_le_pos; [exact Hs | apply power_nonneg].
Qed.

Lemma arno_potInf_le_free (cap beta r : R) :
  0 < beta -> 0 <= cap -> 0 <= r <= 1 ->
  arno_potInf (cap / (beta + 1))
              (Np.maximum (Np.minimum (1 - Np.power (1 - r) beta) 1) 0)
              ((beta + 1) / beta)
  <= cap * (1 - r).
Proof.
  intros Hbeta Hcap [Hr0 Hr1].
  rewrite arno_potInf_factored.
  assert (Hpb : 0 < (beta + 1) / beta) by (apply Rdiv_lt_0_compat; lra).
  assert (Hinv : 0 < / (beta + 1) <= 1).
  { split; [apply Rinv_0_lt_compat; lra |].
    rewrite <- Rinv_1. apply Rinv_le_contravar; lra. }
  destruct (Req_dec_T r 1) as [-> | Hne].
  - replace (1 - 1) with 0 by lra.
    rewrite (power_zero beta Hbeta).
    replace (Np.maximum (Np.minimum (1 - 0) 1) 0) with 1 by np_lra.
    replace (1 - 1) with 0 by lra.
    rewrite (power_zero _ Hpb). lra.
  - assert (Hx : 0 < 1 - r <= 1) by lra.
    set (x := 1 - r) in *.
    assert (Hy : Np.power x beta = Rpower x beta).
    { unfold Np.power. destruct (Rlt_dec 0 x); [reflexivity | lra]. }
    assert (Hy1 : Rpower x beta <= 1) by (apply Rpower_le_one; lra).
    assert (Hy0 : 0 < Rpower x beta) by (unfold Rpower; apply exp_pos).
    rewrite Hy.
    replace (Np.maximum (Np.minimum (1 - Rpower x beta) 1) 0)
      with (1 - Rpower x beta) by np_lra.
    replace (1 - (1 - Rpower x beta)) with (Rpower x beta) by lra.
    unfold Np.power. destruct (Rlt_dec 0 (Rpower x beta)) as [_ | Hn]; [| lra].
    rewrite Rpower_mult.
    replace (beta * ((beta + 1) / beta)) with (beta + 1) by (field; lra).
    rewrite Rpower_plus, Rpower_1 by lra.
    unfold Rdiv.
    assert (Hprod : 0 <= Rpower x beta * x <= x) by nra.
    assert (Hscale : / (beta + 1) * (Rpower x beta * x) <= x) by nra.
    replace (cap * / (beta + 1) * (Rpower x beta * x))
      with (cap * (/ (beta + 1) * (Rpower x beta * x))) by ring.
    apply Rmult_le_compat_l; assumption.
Qed.

(** ** Well-formed cells pass every assertion *)

Lemma passes_intro (g : Globals) (c : Cell) :
  -1e-6 <= availWaterInfiltration_183 c ->
  0 <= topwater_193 c ->
  (0 <= w1_214 c /\ 0 <= w2_211 c /\ 0 <= w3_208 c) ->
  (0 <= w1_294 g c /\ 0 <= w2_295 g c /\ 0 <= w3_296 g c) ->
  (0 <= w1_382 g c /\ 0 <= w2_381 g c) ->
  (0 <= w1_427 g c /\ 0 <= w2_428 g c /\ 0 <= w3_429 g c) ->
  (0 <= w1_556 g c /\ 0 <= w2_558 g c /\ 0 <= w3_560 g c) ->
  passes g c.
Proof.
  intros H184 H195 (Ha & Hb & Hc) (Hd & He & Hf) (Hg & Hh) (Hi & Hj & Hk)
         (Hl & Hm & Hn).
  assert (H403 : assert_403 g c = true).
  { unfold assert_403, satTerm2_398, satTerm2_397. apply andb_true_iff.
    split; [apply geb_spec | apply leb_spec]; np_lra. }
  assert (H404 : assert_404 g c = true).
  { unfold assert_404, satTerm3_400, satTerm3_399. apply andb_true_iff.
    split; [apply geb_spec | apply leb_spec]; np_lra. }
  unfold passes, assertions. simpl. rewrite H403, H404.
  unfold assert_184, assert_195, assert_216, assert_217, assert_218,
         assert_298, assert_299, assert_300, assert_385, assert_386, assert_387,
         assert_431, assert_432, assert_433, assert_557, assert_559, assert_561.
  repeat (apply andb_true_iff; split); try reflexivity;
    apply geb_spec; lra.
Qed.

Lemma availWaterInfiltration_185_nonneg (c : Cell) :
  0 <= availWaterInfiltration_185 c.
Proof. unfold availWaterInfiltration_185. np_lra. Qed.

Lemma availWaterInfiltration_185_close (c : Cell) :
  -1e-6 <= availWaterInfiltration_183 c ->
  Rabs (availWaterInfiltration_185 c - availWaterInfiltration_183 c) <= 1e-6.
Proof.
  intros Htol. unfold availWaterInfiltration_185, Rabs.
  destruct (Rcase_abs _); np_lra.
Qed.

Section Wellformed.

Variable g : Globals.
Variable c : Cell.
Hypothesis Hbio : bioarea c = true.
Hypothesis Hwf : wellformed g c.

Lemma wf_topwater_193 : 0 <= topwater_193 c.
Proof.
  pose proof (wf_topwater g c Hwf).
  pose proof (availWaterInfiltration_185_nonneg c).
  unfold topwater_193, openWaterEvap_192, topwater_189.
  destruct (paddy_irrigated_land c); [| assumption].
  destruct (flooded c); np_lra.
Qed.

Lemma wf_availWaterInfiltration_198 : 0 <= availWaterInfiltration_198 c.
Proof.
  pose proof wf_topwater_193.
  pose proof (availWaterInfiltration_185_nonneg c).
  unfold availWaterInfiltration_198.
  destruct (paddy_irrigated_land c); [| assumption].
  destruct (flooded c); simpl; lra.
Qed.

Lemma wf_cascade :
  wres1 c <= w1_214 c <= ws1 c /\
  wres2 c + kunSatFC12 c <= w2_211 c <= ws2 c /\
  wres3 c <= w3_208 c <= ws3 c.
Proof.
  destruct Hwf as [_ _ _ H1 H2 H3 _ _ _ _ _ _ _ _ _ Hcap _].
  unfold w1_214, w1_210, w2_211, w2_207, w3_208, w3_205.
  rewrite Hbio. np_lra.
Qed.

Lemma wf_transpiration :
  wres1 c <= w1_294 g c <= ws1 c /\
  wres2 c + kunSatFC12 c <= w2_295 g c <= ws2 c /\
  wres3 c <= w3_296 g c <= ws3 c.
Proof.
  pose proof wf_cascade as (H1 & H2 & H3).
  pose proof (wf_wwp g c Hwf) as (Hp1 & Hp2 & Hp3).
  unfold w1_294, w2_295, w3_296, ta1, ta2, ta3. rewrite Hbio.
  generalize (TaMax_286 g c * adjRoot0 c), (TaMax_286 g c * adjRoot1 c),
             (TaMax_286 g c * adjRoot2 c).
  intros x y z. np_lra.
Qed.

Lemma wf_potBareSoilEvap_201 : 0 <= potBareSoilEvap_201 c.
Proof.
  pose proof (wf_potBareSoilEvap g c Hwf).
  unfold potBareSoilEvap_201. destruct (paddy_irrigated_land c); np_lra.
Qed.

Lemma wf_actBareSoilEvap :
  0 <= actBareSoilEvap_314 g c <= w1_294 g c - wres1 c.
Proof.
  pose proof wf_transpiration as (H1 & _).
  pose proof wf_potBareSoilEvap_201 as Hpot.
  unfold actBareSoilEvap_314, actBareSoilEvap_311, actBareSoilEvap_309.
  rewrite Hbio.
  destruct (paddy_irrigated_land c); destruct (frozen g c); np_lra.
Qed.

Lemma wf_evaporation : wres1 c <= w1_316 g c <= ws1 c.
Proof.
  pose proof wf_transpiration as (H1 & _).
  pose proof wf_actBareSoilEvap as He.
  unfold w1_316. rewrite Hbio. lra.
Qed.

End Wellformed.

Section WellformedInfiltration.

Variable g : Globals.
Variable c : Cell.
Hypothesis Hbio : bioarea c = true.
Hypothesis Hwf : wellformed g c.

Lemma wf_soilWaterStorage :
  0 <= soilWaterStorage g c <= soilWaterStorageCap c.
Proof.
  pose proof (wf_transpiration g c Hbio Hwf) as (_ & H2 & _).
  pose proof (wf_evaporation g c Hbio Hwf) as H1.
  pose proof (wf_wres g c Hwf) as (Hr1 & Hr2 & _).
  pose proof (wf_kunSatFC g c Hwf) as (Hk & _).
  unfold soilWaterStorage, soilWaterStorageCap. lra.
Qed.

Lemma wf_relSat :
  0 <= relSat_324 g c <= 1 /\
  soilWaterStorageCap c * (1 - relSat_324 g c)
  = soilWaterStorageCap c - soilWaterStorage g c.
Proof.
  pose proof wf_soilWaterStorage as [HS0 HS1].
  pose proof (wf_capacity g c Hwf) as Hcap.
  fold (soilWaterStorageCap c) in Hcap.
  assert (Hinv : 0 < / soilWaterStorageCap c) by (apply Rinv_0_lt_compat; exact Hcap).
  assert (Hrel : 0 <= relSat_323 g c <= 1).
  { unfold relSat_323, Rdiv. split.
    - apply Rmult_le_pos; lra.
    - rewrite <- (Rinv_r (soilWaterStorageCap c)) by lra.
      apply Rmult_le_compat_r; lra. }
  assert (Heq : relSat_324 g c = relSat_323 g c).
  { unfold relSat_324. np_lra. }
  rewrite Heq. split; [exact Hrel |].
  unfold relSat_323. field. lra.
Qed.

Lemma wf_prefFlow :
  0 <= prefFlow_352 g c <= availWaterInfiltration_198 c.
Proof.
  pose proof (wf_availWaterInfiltration_198 g c Hwf) as Ha.
  pose proof wf_relSat as [[_ Hr1] _].
  pose proof (wf_capriseindex g c Hwf) as Hcri.
  pose proof (power_nonneg (relSat_324 g c) (cPrefFlow g)) as Hp0.
  pose proof (power_le_one (relSat_324 g c) (cPrefFlow g) Hr1 (wf_cPrefFlow g c Hwf))
    as Hp1.
  unfold prefFlow_352, prefFlow_348, prefFlow_347, prefFlow_346.
  rewrite Hbio.
  destruct (paddy_irrigated_land c); [lra |].
  destruct (frozen g c); simpl; [lra |].
  assert (Hq : 0 <= availWaterInfiltration_198 c * Np.power (relSat_324 g c) (cPrefFlow g)
               <= availWaterInfiltration_198 c) by nra.
  set (q := availWaterInfiltration_198 c * Np.power (relSat_324 g c) (cPrefFlow g)) in *.
  nra.
Qed.

Lemma wf_potInf :
  0 <= potInf g c <= soilWaterStorageCap c - soilWaterStorage g c.
Proof.
  pose proof wf_relSat as [Hrel Hfree].
  pose proof (wf_capacity g c Hwf) as Hcap.
  pose proof (wf_arnoBeta g c Hwf) as Hbeta.
  fold (soilWaterStorageCap c) in Hcap.
  unfold potInf, store, potBeta, satAreaFrac_332, satAreaFrac_328. split.
  - apply arno_potInf_nonneg. apply Rlt_le, Rdiv_lt_0_compat; lra.
  - rewrite <- Hfree. apply arno_potInf_le_free; lra.
Qed.

Lemma wf_infiltration :
  0 <= infiltration_360 g c /\
  infiltration_360 g c <= availWaterInfiltration_198 c - prefFlow_352 g c /\
  infiltration_360 g c <= soilWaterStorageCap c - soilWaterStorage g c.
Proof.
  pose proof wf_potInf as Hpot.
  pose proof wf_prefFlow as Hpf.
  unfold infiltration_360, infiltration_358. rewrite Hbio.
  destruct (frozen g c); np_lra.
Qed.

Lemma wf_infiltrated :
  wres1 c <= w1_382 g c <= ws1 c /\
  wres2 c + kunSatFC12 c <= w2_381 g c <= ws2 c.
Proof.
  pose proof (wf_transpiration g c Hbio Hwf) as (_ & H2 & _).
  pose proof (wf_evaporation g c Hbio Hwf) as H1.
  pose proof wf_infiltration as (Hi0 & _ & Hi1).
  unfold soilWaterStorage, soilWaterStorageCap in Hi1.
  unfold w1_382, w2_381, w1_380. rewrite Hbio. np_lra.
Qed.

Lemma wf_kUnSat_407 : 0 <= kUnSat2_407 g c /\ 0 <= kUnSat3_408 g c.
Proof.
  pose proof (wf_KSat g c Hwf) as (_ & H2 & H3).
  split; apply kUnSat_nonneg; assumption.
Qed.

Lemma wf_capRise1 : 0 <= capRise1 g c <= kunSatFC12 c.
Proof.
  pose proof (wf_kunSatFC g c Hwf) as (Hk & _).
  unfold capRise1. np_lra.
Qed.

Lemma wf_capRise2 :
  0 <= capRise2_418 g c /\
  capRise2_418 g c <= kunSatFC23 c /\
  capRise2_418 g c <= w3_296 g c - wres3 c /\
  (wfc2 c <= w2_381 g c -> capRise2_418 g c = 0).
Proof.
  pose proof (wf_kunSatFC g c Hwf) as (_ & Hk).
  pose proof (wf_transpiration g c Hbio Hwf) as (_ & _ & H3).
  pose proof wf_kUnSat_407 as (_ & Hk3).
  pose proof (wf_wfc g c Hwf) as (Hfc & _).
  unfold capRise2_418, capRise2_416, availWater3_392.
  repeat split; try solve [np_lra].
  intros Hfull.
  assert (Hsat : 1 <= satTermFC2 g c).
  { unfold satTermFC2.
    replace (Np.maximum 0 (w2_381 g c - wres2 c)) with (w2_381 g c - wres2 c)
      by np_lra.
    unfold Rdiv. rewrite <- (Rinv_r (wfc2 c - wres2 c)) by lra.
    apply Rmult_le_compat_r; [| lra].
    apply Rlt_le, Rinv_0_lt_compat. lra. }
  assert (Hneg : (1 - satTermFC2 g c) * kUnSat3_408 g c <= 0) by nra.
  np_lra.
Qed.

Lemma wf_capillary_rise :
  wres1 c <= w1_427 g c /\
  wres2 c <= w2_428 g c <= ws2 c /\
  wres3 c <= w3_429 g c <= ws3 c.
Proof.
  pose proof (wf_transpiration g c Hbio Hwf) as (_ & _ & H3).
  pose proof wf_infiltrated as (H1 & H2).
  pose proof wf_capRise1 as Hc1.
  pose proof wf_capRise2 as (Hc20 & Hc2k & Hc2a & Hc2z).
  pose proof (wf_wfc g c Hwf) as (_ & Hroom).
  unfold w1_427, w2_428, w3_429. rewrite Hbio.
  destruct (Rle_dec (wfc2 c) (w2_381 g c)) as [Hfull | Hfree].
  - rewrite (Hc2z Hfull) in *. lra.
  - lra.
Qed.

End WellformedInfiltration.

(** ** The percolation loop *)

Lemma DtSub_pos : 0 < DtSub.
Proof. unfold DtSub, NoSubSteps. simpl. lra. Qed.

Lemma loop_body_percolating (g : Globals) (c : Cell) (a1 a2 a3 : R)
      (s : SubStep) (i : nat) :
  (0 <= KSat1 c /\ 0 <= KSat2 c /\ 0 <= KSat3 c) ->
  0 <= capriseindex c <= 1 ->
  percolating c a1 a2 a3 s ->
  percolating c a1 a2 a3 (loop_body g c s i).
Proof.
  intros (HK1 & HK2 & HK3) Hcri
         ((Ha1 & Ha2 & Ha3) & (Hc2 & Hc3) & (Hc20 & Hc30) & (Hb1 & Hb2 & Hb3)
          & (Hp1 & Hp2 & Hp3) & Hblocked).
  unfold loop_body, percolating. cbv zeta.
  set (k1 := (if (0 <? i)%nat then kUnSat (KSat1 c) (lambda1 c) _
              else kUnSat1_458 g c) * DtSub).
  set (k2 := (if (0 <? i)%nat then kUnSat (KSat2 c) (lambda2 c) _
              else kUnSat2_459 g c) * DtSub).
  set (k3 := (if (0 <? i)%nat then kUnSat (KSat3 c) (lambda3 c) _
              else kUnSat3_460 g c) * DtSub).
  pose proof DtSub_pos as Hdt.
  assert (Hk1 : 0 <= k1).
  { unfold k1, kUnSat1_458. apply Rmult_le_pos; [| lra].
    destruct (0 <? i)%nat; apply kUnSat_nonneg; assumption. }
  assert (Hk2 : 0 <= k2).
  { unfold k2, kUnSat2_459. apply Rmult_le_pos; [| lra].
    destruct (0 <? i)%nat; apply kUnSat_nonneg; assumption. }
  assert (Hk3 : 0 <= k3).
  { unfold k3, kUnSat3_460. apply Rmult_le_pos; [| lra].
    destruct (0 <? i)%nat; apply kUnSat_nonneg; assumption. }
  clearbody k1 k2 k3.
  set (s12 := Np.minimum (availWater1 s) (Np.minimum k1 (capLayer2 s))).
  set (s23 := Np.minimum (availWater2 s) (Np.minimum k2 (capLayer3 s))).
  set (m3 := Np.minimum (availWater3 s) (Np.minimum k3 (availWater3 s))).
  assert (H12 : 0 <= s12 <= availWater1 s /\ s12 <= capLayer2 s)
    by (unfold s12; np_lra).
  assert (H23 : 0 <= s23 <= availWater2 s /\ s23 <= capLayer3 s)
    by (unfold s23; np_lra).
  assert (H3 : 0 <= m3 <= availWater3 s) by (unfold m3; np_lra).
  assert (H3gw : 0 <= m3 * (1 - capriseindex c) <= m3) by nra.
  clearbody s12 s23 m3. simpl.
  repeat split; try lra.
  intros Hone. rewrite Hone in *. specialize (Hblocked eq_refl). lra.
Qed.

Lemma fold_percolating (g : Globals) (c : Cell) (a1 a2 a3 : R) (l : list nat) :
  (0 <= KSat1 c /\ 0 <= KSat2 c /\ 0 <= KSat3 c) ->
  0 <= capriseindex c <= 1 ->
  forall s, percolating c a1 a2 a3 s ->
            percolating c a1 a2 a3 (fold_left (loop_body g c) l s).
Proof.
  intros HK Hcri. induction l as [| i l IH]; intros s Hs; simpl.
  - exact Hs.
  - apply IH. apply loop_body_percolating; assumption.
Qed.

Section WellformedPercolation.

Variable g : Globals.
Variable c : Cell.
Hypothesis Hbio : bioarea c = true.
Hypothesis Hwf : wellformed g c.

Lemma wf_loop_init :
  percolating c (w1_427 g c - wres1 c) (w2_428 g c - wres2 c)
              (w3_429 g c - wres3 c) (loop_init g c).
Proof.
  pose proof (wf_capillary_rise g c Hbio Hwf) as (H1 & H2 & H3).
  unfold percolating, loop_init. simpl.
  unfold availWater1_440, availWater2_441, availWater3_442,
         capLayer2_445, capLayer3_446.
  repeat split; try solve [np_lra].
Qed.

Lemma wf_loop_end :
  percolating c (w1_427 g c - wres1 c) (w2_428 g c - wres2 c)
              (w3_429 g c - wres3 c) (loop_end g c).
Proof.
  unfold loop_end. apply fold_percolating.
  - apply (wf_KSat g c Hwf).
  - apply (wf_capriseindex g c Hwf).
  - apply wf_loop_init.
Qed.

(** After the step every layer holds at least its residual storage,
    and layers 2 and 3 at most their capacity. *)
Lemma wf_percolated :
  wres1 c <= w1_556 g c /\
  wres2 c <= w2_558 g c <= ws2 c /\
  wres3 c <= w3_560 g c <= ws3 c.
Proof.
  pose proof (wf_capillary_rise g c Hbio Hwf) as (H1 & H2 & H3).
  pose proof wf_loop_end
    as ((Ha1 & Ha2 & Ha3) & (Hc2 & Hc3) & (Hc20 & Hc30) & (Hb1 & Hb2 & Hb3)
        & _ & Hblocked).
  unfold w1_556, w2_558, w3_560, perc3toGW_521, perc1to2_551, perc2to3_552.
  rewrite Hbio.
  destruct (frozen g c) eqn:Hfrozen; unfold Np.where_.
  - rewrite (Hblocked (wf_frozen g c Hwf Hfrozen)). lra.
  - lra.
Qed.

Lemma wellformed_passes : passes g c.
Proof.
  pose proof (wf_wres g c Hwf) as (Hr1 & Hr2 & Hr3).
  pose proof (wf_kunSatFC g c Hwf) as (Hk & _).
  pose proof (wf_cascade g c Hbio Hwf) as (Ha & Hb & Hc).
  pose proof (wf_transpiration g c Hbio Hwf) as (Hd & He & Hf).
  pose proof (wf_infiltrated g c Hbio Hwf) as (Hg & Hh).
  pose proof (wf_capillary_rise g c Hbio Hwf) as (Hi & Hj & Hl).
  pose proof wf_percolated as (Hm & Hn & Ho).
  apply passes_intro; repeat split; try lra.
  - apply (wf_avail g c Hwf).
  - apply (wf_topwater_193 g c Hwf).
Qed.

End WellformedPercolation.

Lemma admissible_passes (g : Globals) (c : Cell) : admissible g c -> passes g c.
Proof.
  unfold admissible. destruct (bioarea c) eqn:Hbio.
  - apply wellformed_passes, Hbio.
  - intros (Ha & Ht & H1 & H2 & H3).
    assert (Hlut : (4 <= land_use_type c)%nat)
      by (apply Nat.ltb_ge; exact Hbio).
    destruct (outside_untouched g c Hlut)
      as ((E1 & E2 & E3 & _) & (E4 & E5 & E6 & E7 & E8 & E9 & E10 & E11 & E12
                                & E13 & E14 & E15)).
    apply passes_intro; rewrite ?E1, ?E2, ?E3, ?E4, ?E5, ?E6, ?E7, ?E8, ?E9,
      ?E10, ?E11, ?E12, ?E13, ?E14, ?E15; repeat split; assumption.
Qed.

Lemma admissible_active (g : Globals) (c : Cell) :
  bioarea c = true -> wellformed g c -> admissible g c.
Proof. intros Hbio Hwf. unfold admissible. rewrite Hbio. exact Hwf. Qed.

Lemma admissible_outside (g : Globals) (c : Cell) :
  bioarea c = false ->
  -1e-6 <= availWaterInfiltration_183 c ->
  0 <= topwater c -> 0 <= w1 c -> 0 <= w2 c -> 0 <= w3 c ->
  admissible g c.
Proof. intros Hbio Ha Ht H1 H2 H3. unfold admissible. rewrite Hbio. auto. Qed.

(** On admissible input no assertion fails: [dynamic] returns the
    result of every cell. *)
Lemma dynamic_completes (g : Globals) (cells : list Cell) :
  Forall (admissible g) cells ->
  dynamic g cells = Returned (map (result g) cells).
Proof.
  intros Hall. apply dynamic_Returned. split; [| reflexivity].
  eapply Forall_impl; [| exact Hall]. apply admissible_passes.
Qed.

(** ** Mass conservation (C1) *)

(** Well-formedness of a concrete column is a matter of arithmetic. *)
Ltac column_wf :=
  constructor; unfold availWaterInfiltration_183, frozen; simpl;
  try lra;
  try (let H := fresh in intros H; apply gtb_spec in H; simpl in H; lra).

Section Balance.

Variable g : Globals.
Variable c : Cell.
Hypothesis Hbio : bioarea c = true.

Lemma paddy_prefFlow : paddy_irrigated_land c = true -> prefFlow_352 g c = 0.
Proof.
  intros Hpaddy. unfold prefFlow_352, prefFlow_348. rewrite Hbio, Hpaddy. lra.
Qed.

Lemma infiltration_le :
  0 <= availWaterInfiltration_198 c - prefFlow_352 g c ->
  infiltration_360 g c <= availWaterInfiltration_198 c - prefFlow_352 g c.
Proof.
  intros Hpos. unfold infiltration_360, infiltration_358. rewrite Hbio.
  generalize (potInf g c). intros x.
  destruct (frozen g c); np_lra.
Qed.

(** The surface: ponded water, infiltration, runoff, preferential flow
    and open-water evaporation share out the ponded water and the
    available water; outside paddy fields the array of open-water
    evaporation is passed through as the caller filled it. *)
Lemma surface_balance :
  0 <= topwater_193 c -> 0 <= maxtopwater g ->
  topwater_372 g c + infiltration_360 g c + directRunoff_370 g c
  + prefFlow_352 g c + openWaterEvap_192 c
  = topwater c + availWaterInfiltration_185 c
    + (if paddy_irrigated_land c then 0 else openWaterEvap c).
Proof.
  intros Htop Hmax.
  pose proof (availWaterInfiltration_185_nonneg c) as Ha.
  destruct (paddy_irrigated_land c) eqn:Hpaddy.
  - assert (Hle : infiltration_360 g c <= availWaterInfiltration_198 c).
    { pose proof (paddy_prefFlow Hpaddy) as Hpf.
      assert (Hpos : 0 <= availWaterInfiltration_198 c - prefFlow_352 g c).
      { rewrite Hpf. unfold availWaterInfiltration_198. rewrite Hpaddy.
        destruct (flooded c); simpl; lra. }
      pose proof (infiltration_le Hpos). lra. }
    rewrite (paddy_prefFlow Hpaddy) in *.
    assert (Htw : topwater_193 c = topwater_189 c - openWaterEvap_192 c).
    { unfold topwater_193. rewrite Hpaddy. reflexivity. }
    unfold topwater_372, directRunoff_370, h, topwater_367, directRunoff_363.
    rewrite Hbio, Hpaddy.
    rewrite (paddy_prefFlow Hpaddy).
    unfold availWaterInfiltration_198 in *. rewrite Hpaddy in *.
    unfold topwater_189 in Htw. rewrite Hpaddy in Htw.
    generalize dependent (infiltration_360 g c).
    generalize dependent (topwater_193 c).
    generalize dependent (openWaterEvap_192 c).
    intros owe tw Htop Htw inf Hle.
    destruct (flooded c); np_lra.
  - unfold topwater_372, topwater_367, topwater_193, topwater_189,
      openWaterEvap_192, directRunoff_370, directRunoff_363.
    rewrite Hbio, Hpaddy.
    assert (H198 : availWaterInfiltration_198 c = availWaterInfiltration_185 c).
    { unfold availWaterInfiltration_198. rewrite Hpaddy. reflexivity. }
    rewrite H198.
    destruct (frozen g c) eqn:Hfrozen.
    + rewrite (frozen_prefFlow g c Hfrozen), (frozen_infiltration g c Hfrozen).
      np_lra.
    + unfold infiltration_360, infiltration_358.
      rewrite Hbio, Hfrozen, H198.
      generalize (potInf g c), (prefFlow_352 g c). intros x y. np_lra.
Qed.

(** The soil: the three storages change by what enters from below and
    from the surface minus what leaves by runoff from the saturated
    column, transpiration, evaporation and percolation to groundwater. *)
Lemma soil_balance :
  w1_556 g c + w2_558 g c + w3_560 g c
  = w1 c + w2 c + w3 c + capillar c - saverunofffromGW c
    - actTransTotal_302 g c - actBareSoilEvap_314 g c
    + infiltration_360 g c - perc3toGW_521 g c.
Proof.
  pose proof (cascade_conserves c Hbio) as Hcascade.
  assert (Hta : w1_294 g c + w2_295 g c + w3_296 g c
                = w1_214 c + w2_211 c + w3_208 c - actTransTotal_302 g c).
  { unfold w1_294, w2_295, w3_296, actTransTotal_302. rewrite Hbio. lra. }
  assert (Hev : w1_316 g c = w1_294 g c - actBareSoilEvap_314 g c).
  { unfold w1_316. rewrite Hbio. reflexivity. }
  assert (Hinf : w1_382 g c + w2_381 g c
                 = w1_316 g c + w2_295 g c + infiltration_360 g c).
  { unfold w1_382, w2_381, w1_380. rewrite Hbio. np_lra. }
  assert (Hrise : w1_427 g c + w2_428 g c + w3_429 g c
                  = w1_382 g c + w2_381 g c + w3_296 g c).
  { unfold w1_427, w2_428, w3_429. rewrite Hbio. lra. }
  assert (Hperc : w1_556 g c + w2_558 g c + w3_560 g c
                  = w1_427 g c + w2_428 g c + w3_429 g c - perc3toGW_521 g c).
  { unfold w1_556, w2_558, w3_560. rewrite Hbio. lra. }
  lra.
Qed.

(** What is left of the balance: the correction of line 185 and the
    open-water evaporation handed in for a cell that is no paddy field. *)
Lemma balance_exact :
  0 <= topwater_193 c -> 0 <= maxtopwater g ->
  balance c (result g c)
  = availWaterInfiltration_183 c - availWaterInfiltration_185 c
    - (if paddy_irrigated_land c then 0 else openWaterEvap c).
Proof.
  intros Htop Hmax.
  pose proof (surface_balance Htop Hmax) as Hsurface.
  pose proof soil_balance as Hsoil.
  unfold balance, influxes, outfluxes, poststorages, prestorages. simpl.
  unfold directRunoff_374. rewrite Hbio.
  unfold availWaterInfiltration_183. lra.
Qed.

End Balance.

(** The balance is stated within the module's interface, where the
    open-water evaporation is an output: line 192 produces it on paddy
    fields and leaves the array it was handed as it is elsewhere, so
    that array is expected to hold 0 there.  Were a forest cell handed
    0.01 m instead, the step would complete, the array would come back
    unchanged at that cell and enter the outfluxes, and the balance
    would be off by 0.01 m. *)
Lemma balance_off_by_incoming_evaporation :
  dynamic thresholds [forest_with_evaporation]
  = Returned [result thresholds forest_with_evaporation] /\
  bioarea forest_with_evaporation = true /\
  balance forest_with_evaporation (result thresholds forest_with_evaporation)
  = - 0.01 /\
  ~ Rabs (balance forest_with_evaporation
                  (result thresholds forest_with_evaporation)) <= 1e-6.
Proof.
  assert (Hwf : wellformed thresholds forest_with_evaporation) by column_wf.
  assert (Hbio : bioarea forest_with_evaporation = true) by reflexivity.
  assert (Hbal : balance forest_with_evaporation
                         (result thresholds forest_with_evaporation) = - 0.01).
  { rewrite balance_exact.
    - unfold availWaterInfiltration_185, availWaterInfiltration_183. simpl. np_lra.
    - exact Hbio.
    - apply (wf_topwater_193 thresholds). exact Hwf.
    - simpl. lra. }
  split; [| split; [exact Hbio | split; [exact Hbal |]]].
  - apply (dynamic_completes thresholds [forest_with_evaporation]).
    apply Forall_cons; [| apply Forall_nil].
    apply admissible_active; assumption.
  - rewrite Hbal. unfold Rabs. destruct (Rcase_abs _); lra.
Qed.

(** Likewise the maximum ponding depth is a depth, not negative: with
    a negative maximum the flooded paddy field would release as runoff
    0.01 m more than it holds. *)
Lemma balance_off_by_negative_maxtopwater :
  dynamic negative_ponding [paddy_flooded]
  = Returned [result negative_ponding paddy_flooded] /\
  balance paddy_flooded (result negative_ponding paddy_flooded) = - 0.01.
Proof.
  assert (Hwf : wellformed negative_ponding paddy_flooded) by column_wf.
  assert (Hbio : bioarea paddy_flooded = true) by reflexivity.
  assert (Hpaddy : paddy_irrigated_land paddy_flooded = true) by reflexivity.
  split.
  - apply (dynamic_completes negative_ponding [paddy_flooded]).
    apply Forall_cons; [| apply Forall_nil].
    apply admissible_active; assumption.
  - pose proof (soil_balance negative_ponding paddy_flooded Hbio) as Hsoil.
    pose proof (paddy_prefFlow negative_ponding paddy_flooded Hbio Hpaddy) as Hpf.
    pose proof (wf_infiltration negative_ponding paddy_flooded Hbio Hwf)
      as (Hi0 & Hi1 & _).
    assert (H193 : topwater_193 paddy_flooded = 0.06).
    { unfold topwater_193, openWaterEvap_192, topwater_189,
        availWaterInfiltration_185, availWaterInfiltration_183, flooded.
      simpl. np_lra. }
    assert (H198 : availWaterInfiltration_198 paddy_flooded = 0.06).
    { unfold availWaterInfiltration_198, flooded. simpl.
      rewrite gtb_true by lra. exact H193. }
    assert (H192 : openWaterEvap_192 paddy_flooded = 0).
    { unfold openWaterEvap_192, topwater_189, availWaterInfiltration_185,
        availWaterInfiltration_183, flooded.
      simpl. np_lra. }
    rewrite Hpf, H198 in Hi1.
    unfold balance, influxes, outfluxes, poststorages, prestorages. simpl.
    rewrite Hsoil, Hpf, H192.
    unfold directRunoff_374, topwater_372, directRunoff_370, h, topwater_367,
      flooded.
    rewrite Hbio, Hpaddy, H193. simpl. rewrite gtb_true by lra.
    generalize dependent (infiltration_360 negative_ponding paddy_flooded).
    intros x _ Hx0 Hx1. np_lra.
Qed.

(** C1: in a run that returns, every active cell has its influxes
    (natural available water, capillary rise, irrigation consumption)
    minus its outfluxes (direct runoff, percolation to groundwater,
    preferential flow, transpiration, bare-soil evaporation, open-water
    evaporation) equal to the change of [w1 + w2 + w3 + topwater], to
    within 1e-6.  The two conditions on the input are those of the
    module's interface: the maximum ponding depth is not negative, and
    the open-water evaporation, an output that only paddy fields
    produce, is zero elsewhere in the array the caller passes. *)
Theorem mass_conservation
        (g : Globals) (cells : list Cell) (rs : list Result)
        (i : nat) (c : Cell) (r : Result) :
  dynamic g cells = Returned rs ->
  nth_error cells i = Some c ->
  nth_error rs i = Some r ->
  bioarea c = true ->
  0 <= maxtopwater g ->
  (paddy_irrigated_land c = false -> openWaterEvap c = 0) ->
  Rabs (balance c r) <= 1e-6.
Proof.
  intros Hrun Hc Hr Hbio Hmax Howe.
  destruct (dynamic_nth g cells rs i c Hrun Hc) as [Hpass Hr'].
  assert (r = result g c) by congruence. subst r.
  rewrite (balance_exact g c Hbio (passes_195 g c Hpass) Hmax).
  pose proof (availWaterInfiltration_185_close c (passes_184 g c Hpass)) as Hclose.
  rewrite Rabs_minus_sym in Hclose.
  destruct (paddy_irrigated_land c).
  - rewrite Rminus_0_r. exact Hclose.
  - rewrite (Howe eq_refl), Rminus_0_r. exact Hclose.
Qed.

Lemma mass_conservation_witness :
  Rabs (balance paddy_flooded (result thresholds paddy_flooded)) <= 1e-6.
Proof.
  assert (Hrun : dynamic thresholds [forest; paddy_flooded; sealed]
                 = Returned (map (result thresholds) [forest; paddy_flooded; sealed])).
  { apply dynamic_completes.
    apply Forall_cons; [| apply Forall_cons; [| apply Forall_cons; [| apply Forall_nil]]].
    - apply admissible_active; [reflexivity | column_wf].
    - apply admissible_active; [reflexivity | column_wf].
    - apply admissible_outside; [reflexivity | ..];
        unfold availWaterInfiltration_183; simpl; lra. }
  apply (mass_conservation thresholds [forest; paddy_flooded; sealed] _ 1
                           paddy_flooded _ Hrun).
  - reflexivity.
  - reflexivity.
  - reflexivity.
  - simpl. lra.
  - discriminate.
Defined.

Lemma mixed_run :
  dynamic thresholds [forest_frozen; paddy_drained; sealed]
  = Returned (map (result thresholds) [forest_frozen; paddy_drained; sealed]).
Proof.
  apply dynamic_completes.
  apply Forall_cons; [| apply Forall_cons; [| apply Forall_cons; [| apply Forall_nil]]].
  - apply admissible_active; [reflexivity | column_wf].
  - apply admissible_active; [reflexivity | column_wf].
  - apply admissible_outside; [reflexivity | ..];
      unfold availWaterInfiltration_183; simpl; lra.
Qed.

Lemma frost_gating_witness :
  infiltration_360 thresholds forest_frozen = 0.
Proof.
  refine (proj1 (proj2 (proj2 (proj2 (proj2
            (frost_gating thresholds forest_frozen _ _)))))).
  - reflexivity.
  - simpl. lra.
Defined.

Lemma outside_bioarea_frame_witness :
  exists r,
    nth_error (map (result thresholds) [forest_frozen; paddy_drained; sealed]) 2
    = Some r /\
    (post_w1 r = w1 sealed /\ post_w2 r = w2 sealed /\ post_w3 r = w3 sealed /\
     post_topwater r = topwater sealed) /\
    (ret_interflow r = 0 /\ ret_directRunoff r = 0 /\
     ret_groundwater_recharge r = 0 /\ ret_perc3toGW r = 0 /\
     ret_prefFlow r = 0).
Proof.
  apply (outside_bioarea_frame thresholds [forest_frozen; paddy_drained; sealed]
                               _ 2 sealed mixed_run).
  - reflexivity.
  - simpl. lia.
Defined.

(** ** Paddy fields (C5, C10) *)

Section Paddy.

Variable g : Globals.
Variable c : Cell.
Hypothesis Hpaddy : paddy_irrigated_land c = true.

Lemma paddy_bioarea : bioarea c = true.
Proof.
  unfold paddy_irrigated_land in Hpaddy. apply Nat.eqb_eq in Hpaddy.
  unfold bioarea. rewrite Hpaddy. reflexivity.
Qed.

Lemma paddy_topwater_193 :
  topwater_193 c = topwater_189 c - openWaterEvap_192 c /\
  openWaterEvap_192 c = Np.minimum (Np.maximum 0 (topwater_189 c)) (EWRef c).
Proof.
  unfold topwater_193, openWaterEvap_192. rewrite Hpaddy. split; reflexivity.
Qed.

Lemma paddy_topwater_367 :
  topwater_367 g c = Np.maximum 0 (topwater_193 c - infiltration_360 g c).
Proof. unfold topwater_367. rewrite Hpaddy. reflexivity. Qed.

Lemma paddy_topwater_372 :
  topwater_372 g c = Np.maximum 0 (topwater_367 g c - directRunoff_370 g c).
Proof. unfold topwater_372. rewrite Hpaddy. reflexivity. Qed.

Lemma paddy_flooded_runoff :
  flooded c = true ->
  directRunoff_374 g c = h g c + saverunofffromGW c.
Proof.
  intros Hflood. unfold directRunoff_374, directRunoff_370.
  rewrite paddy_bioarea, Hpaddy, Hflood. reflexivity.
Qed.

End Paddy.

(** C10: on a paddy cell whose crop coefficient is at most 0.75, the
    water offered to the split between infiltration and runoff is the
    ponded water, as it stands after the open-water evaporation, plus
    the incoming available water; the ponded water is not set to zero
    at that point, and is then lowered by the infiltration and after
    that by the direct runoff, each time not below zero. *)
Theorem paddy_not_flooded (g : Globals) (c : Cell) :
  paddy_irrigated_land c = true ->
  cropKC c <= 0.75 ->
  topwater_189 c = topwater c /\
  topwater_193 c = topwater c - openWaterEvap_192 c /\
  availWaterInfiltration_198 c = topwater_193 c + availWaterInfiltration_185 c /\
  infiltration_358 g c
  = Np.minimum (potInf g c) (availWaterInfiltration_198 c - prefFlow_352 g c) /\
  directRunoff_370 g c
  = Np.maximum 0 (availWaterInfiltration_198 c - infiltration_360 g c
                  - prefFlow_352 g c) /\
  topwater_367 g c = Np.maximum 0 (topwater_193 c - infiltration_360 g c) /\
  post_topwater (result g c)
  = Np.maximum 0 (Np.maximum 0 (topwater_193 c - infiltration_360 g c)
                  - directRunoff_370 g c).
Proof.
  intros Hpaddy Hkc.
  assert (Hdry : flooded c = false) by (apply gtb_false; exact Hkc).
  pose proof (paddy_bioarea c Hpaddy) as Hbio.
  assert (H189 : topwater_189 c = topwater c).
  { unfold topwater_189. rewrite Hpaddy, Hdry. reflexivity. }
  repeat split.
  - exact H189.
  - rewrite (proj1 (paddy_topwater_193 c Hpaddy)), H189. reflexivity.
  - unfold availWaterInfiltration_198. rewrite Hpaddy, Hdry. reflexivity.
  - unfold infiltration_358. rewrite Hbio. reflexivity.
  - unfold directRunoff_370, directRunoff_363. rewrite Hpaddy, Hdry, Hbio.
    reflexivity.
  - apply paddy_topwater_367, Hpaddy.
  - simpl. rewrite (paddy_topwater_372 g c Hpaddy), (paddy_topwater_367 g c Hpaddy).
    reflexivity.
Qed.

Lemma paddy_not_flooded_witness :
  availWaterInfiltration_198 paddy_drained
  = topwater_193 paddy_drained + availWaterInfiltration_185 paddy_drained.
Proof.
  refine (proj1 (proj2 (proj2 (paddy_not_flooded thresholds paddy_drained _ _)))).
  - reflexivity.
  - simpl. lra.
Defined.

(** C5 does not hold as stated: on a flooded paddy cell whose soil
    is saturated, the capillary rise that finds no room is added to the
    direct runoff, which is then 0.005 m more than the ponded water in
    excess of the maximum depth. *)
Lemma flooded_runoff_includes_groundwater_excess :
  dynamic thresholds [paddy_saturated]
  = Returned [result thresholds paddy_saturated] /\
  paddy_irrigated_land paddy_saturated = true /\
  0.75 < cropKC paddy_saturated /\
  ret_directRunoff (result thresholds paddy_saturated)
  = Np.maximum 0 (topwater_367 thresholds paddy_saturated
                  - maxtopwater thresholds) + 0.005 /\
  ret_directRunoff (result thresholds paddy_saturated)
  <> Np.maximum 0 (topwater_367 thresholds paddy_saturated
                   - maxtopwater thresholds).
Proof.
  assert (Hrun : ret_directRunoff (result thresholds paddy_saturated)
                 = Np.maximum 0 (topwater_367 thresholds paddy_saturated
                                 - maxtopwater thresholds) + 0.005).
  { simpl ret_directRunoff. rewrite paddy_flooded_runoff.
    - unfold h. f_equal.
      unfold saverunofffromGW, w1_210, w2_207, w3_205, bioarea. simpl. np_lra.
    - reflexivity.
    - apply gtb_true. simpl. lra. }
  split; [| split; [reflexivity | split; [simpl; lra | split; [exact Hrun |]]]].
  - apply (dynamic_completes thresholds [paddy_saturated]).
    apply Forall_cons; [| apply Forall_nil].
    apply admissible_active; [reflexivity | column_wf].
  - rewrite Hrun. lra.
Qed.

(** C5, amended: on a paddy cell with crop coefficient above 0.75 the
    available water is added to the ponded water, and the ponded water
    left after evaporation is what is offered to infiltration.  The
    open-water evaporation, [min(max(0, topwater), EWRef)], is
    [min(topwater, EWRef)] whenever the assertion of line 195 holds, and
    is subtracted from the ponded water.  The direct runoff returned is the
    ponded water, after infiltration has been subtracted, in excess of
    [maxtopwater], plus the capillary rise the saturated column could not
    take ([saverunofffromGW]).  With ponded water 0.04, maximum 0.05,
    available water 0.02 and no evaporation, the ponded water is 0.06
    before infiltration is subtracted and the runoff is
    [max(0, 0.06 - infiltration - 0.05)] plus [saverunofffromGW]. *)
Theorem paddy_flooded_ponding (g : Globals) (c : Cell) :
  paddy_irrigated_land c = true ->
  0.75 < cropKC c ->
  topwater_189 c = topwater c + availWaterInfiltration_185 c /\
  (0 <= topwater_193 c ->
   openWaterEvap_192 c = Np.minimum (topwater_189 c) (EWRef c)) /\
  topwater_193 c = topwater_189 c - openWaterEvap_192 c /\
  availWaterInfiltration_198 c = topwater_193 c /\
  topwater_367 g c = Np.maximum 0 (topwater_193 c - infiltration_360 g c) /\
  ret_directRunoff (result g c)
  = Np.maximum 0 (topwater_367 g c - maxtopwater g) + saverunofffromGW c /\
  (topwater c = 0.04 -> maxtopwater g = 0.05 ->
   availWaterInfiltration_185 c = 0.02 -> EWRef c = 0 ->
   topwater_193 c = 0.06 /\
   ret_directRunoff (result g c)
   = Np.maximum 0 (0.06 - infiltration_360 g c - 0.05) + saverunofffromGW c).
Proof.
  intros Hpaddy Hkc.
  assert (Hflood : flooded c = true) by (apply gtb_true; exact Hkc).
  assert (H189 : topwater_189 c = topwater c + availWaterInfiltration_185 c).
  { unfold topwater_189. rewrite Hpaddy, Hflood. reflexivity. }
  destruct (paddy_topwater_193 c Hpaddy) as [H193 H192].
  assert (Hrunoff : ret_directRunoff (result g c)
                    = Np.maximum 0 (topwater_367 g c - maxtopwater g)
                      + saverunofffromGW c).
  { simpl. rewrite (paddy_flooded_runoff g c Hpaddy Hflood). reflexivity. }
  assert (Hcase : topwater c = 0.04 -> maxtopwater g = 0.05 ->
                  availWaterInfiltration_185 c = 0.02 -> EWRef c = 0 ->
                  topwater_193 c = 0.06 /\
                  ret_directRunoff (result g c)
                  = Np.maximum 0 (0.06 - infiltration_360 g c - 0.05)
                    + saverunofffromGW c).
  { intros Htop Hmax Havail Hew. split.
    - rewrite H193, H192, H189, Htop, Havail, Hew. np_lra.
    - rewrite Hrunoff, (paddy_topwater_367 g c Hpaddy), H193, H192, H189.
      rewrite Htop, Hmax, Havail, Hew.
      generalize (infiltration_360 g c). intros x. np_lra. }
  repeat split.
  - exact H189.
  - intros Hpos. rewrite H193, H192 in Hpos. rewrite H192.
    clear - Hpos. np_lra.
  - exact H193.
  - unfold availWaterInfiltration_198. rewrite Hpaddy, Hflood. reflexivity.
  - apply paddy_topwater_367, Hpaddy.
  - exact Hrunoff.
  - apply Hcase; assumption.
  - apply Hcase; assumption.
Qed.

Lemma paddy_flooded_ponding_witness :
  topwater_193 paddy_flooded = 0.06 /\
  ret_directRunoff (result thresholds paddy_flooded)
  = Np.maximum 0 (0.06 - infiltration_360 thresholds paddy_flooded - 0.05)
    + saverunofffromGW paddy_flooded.
Proof.
  refine (proj2 (proj2 (proj2 (proj2 (proj2 (proj2
            (paddy_flooded_ponding thresholds paddy_flooded _ _)))))) _ _ _ _).
  - reflexivity.
  - simpl. lra.
  - reflexivity.
  - reflexivity.
  - unfold availWaterInfiltration_185, availWaterInfiltration_183. simpl. np_lra.
  - reflexivity.
Defined.

(** ** Storage bounds (C2) *)

(** In frozen soil the storages pass unchanged from the capillary rise
    from groundwater to the capillary rise between the layers. *)
Lemma frozen_storages (g : Globals) (c : Cell) :
  bioarea c = true -> frozen g c = true ->
  w1_294 g c = w1_214 c /\ w2_295 g c = w2_211 c /\ w3_296 g c = w3_208 c /\
  w1_382 g c = w1_214 c /\ w2_381 g c = w2_211 c.
Proof.
  intros Hbio Hfrozen.
  pose proof (frozen_ta g c Hfrozen) as (Ht1 & Ht2 & Ht3).
  pose proof (frozen_actBareSoilEvap g c Hfrozen Hbio) as Hev.
  pose proof (frozen_infiltration g c Hfrozen) as Hinf.
  pose proof (cascade_capped c Hbio) as (Hcap & _).
  assert (H1 : w1_294 g c = w1_214 c)
    by (unfold w1_294; rewrite Hbio, Ht1; lra).
  assert (H2 : w2_295 g c = w2_211 c)
    by (unfold w2_295; rewrite Hbio, Ht2; lra).
  assert (H3 : w3_296 g c = w3_208 c)
    by (unfold w3_296; rewrite Hbio, Ht3; lra).
  assert (H380 : w1_380 g c = w1_214 c).
  { unfold w1_380, w1_316. rewrite Hbio, Hev, Hinf, H1. lra. }
  repeat split; try assumption.
  - unfold w1_382. rewrite Hbio, H380. np_lra.
  - unfold w2_381. rewrite Hbio, H380, H2. np_lra.
Qed.

(** With the percolation to groundwater fully blocked, none
    accumulates. *)
Lemma blocked_perc3toGW (g : Globals) (c : Cell) :
  capriseindex c = 1 -> perc3toGW (loop_end g c) = 0.
Proof.
  intros Hone. unfold loop_end.
  assert (Hfold : forall l s, perc3toGW s = 0 ->
                              perc3toGW (fold_left (loop_body g c) l s) = 0).
  { induction l as [| i l IH]; intros s Hs; simpl; [exact Hs |].
    apply IH. unfold loop_body. cbv zeta. simpl. rewrite Hs, Hone. lra. }
  apply Hfold. reflexivity.
Qed.

Lemma frozen_blocked_storages (g : Globals) (c : Cell) :
  bioarea c = true -> frozen g c = true -> capriseindex c = 1 ->
  w1_556 g c = w1_427 g c /\ w2_558 g c = w2_428 g c /\ w3_560 g c = w3_429 g c.
Proof.
  intros Hbio Hfrozen Hone.
  pose proof (frozen_perc g c Hfrozen) as (H12 & H23).
  unfold w1_556, w2_558, w3_560, perc3toGW_521.
  rewrite Hbio, H12, H23, (blocked_perc3toGW g c Hone). repeat split; lra.
Qed.

Lemma dry_over_saturated_frozen : frozen thresholds dry_over_saturated = true.
Proof. apply gtb_true. simpl. lra. Qed.

Lemma dry_over_saturated_cascade :
  w1_214 dry_over_saturated = 0.005 /\
  w2_211 dry_over_saturated = 0.02 /\
  w3_208 dry_over_saturated = 0.02.
Proof.
  unfold w1_214, w1_210, w2_211, w2_207, w3_208, w3_205, bioarea. simpl.
  repeat split; np_lra.
Qed.

Lemma dry_over_saturated_before_rise :
  w1_382 thresholds dry_over_saturated = 0.005 /\
  w2_381 thresholds dry_over_saturated = 0.02 /\
  w3_296 thresholds dry_over_saturated = 0.02.
Proof.
  destruct (frozen_storages thresholds dry_over_saturated eq_refl
                            dry_over_saturated_frozen)
    as (_ & _ & H3 & H1 & H2).
  destruct dry_over_saturated_cascade as (E1 & E2 & E3).
  rewrite H1, H2, H3. auto.
Qed.

Lemma dry_over_saturated_capRise1 : capRise1 thresholds dry_over_saturated = 0.016.
Proof.
  destruct dry_over_saturated_before_rise as (E1 & E2 & _).
  assert (Hsat : satTerm2_398 thresholds dry_over_saturated = 1).
  { unfold satTerm2_398, satTerm2_397, satTerm2_394, availWater2_391.
    rewrite E2. simpl.
    replace (Np.maximum 0 (0.02 - 0.005) / (0.02 - 0.005)) with 1
      by (np_unfold; np_cases; try lra; field).
    np_lra. }
  assert (Hk : kUnSat2_407 thresholds dry_over_saturated = 0.5).
  { unfold kUnSat2_407. rewrite Hsat. simpl. apply kUnSat_saturated. lra. }
  assert (Hfc : satTermFC1 thresholds dry_over_saturated = 0).
  { unfold satTermFC1. rewrite E1. simpl.
    replace (Np.maximum 0 (0.005 - 0.005)) with 0 by np_lra. lra. }
  unfold capRise1. rewrite Hk, Hfc. simpl. np_lra.
Qed.

Lemma dry_over_saturated_capRise2 : capRise2_418 thresholds dry_over_saturated = 0.
Proof.
  destruct dry_over_saturated_before_rise as (_ & _ & E3).
  assert (Ha : availWater3_392 thresholds dry_over_saturated = 0).
  { unfold availWater3_392. rewrite E3. simpl. np_lra. }
  unfold capRise2_418, capRise2_416. rewrite Ha. simpl.
  generalize ((1 - satTermFC2 thresholds dry_over_saturated)
              * kUnSat3_408 thresholds dry_over_saturated).
  intros x. np_lra.
Qed.

Lemma dry_over_saturated_after :
  w1_556 thresholds dry_over_saturated = 0.021 /\
  w2_558 thresholds dry_over_saturated = 0.004 /\
  w3_560 thresholds dry_over_saturated = 0.02.
Proof.
  destruct (frozen_blocked_storages thresholds dry_over_saturated eq_refl
                                    dry_over_saturated_frozen eq_refl)
    as (H1 & H2 & H3).
  destruct dry_over_saturated_before_rise as (E1 & E2 & E3).
  rewrite H1, H2, H3. unfold w1_427, w2_428, w3_429.
  rewrite dry_over_saturated_capRise1, dry_over_saturated_capRise2, E1, E2, E3.
  simpl. repeat split; lra.
Qed.

Lemma dry_over_saturated_passes : passes thresholds dry_over_saturated.
Proof.
  destruct (frozen_storages thresholds dry_over_saturated eq_refl
                            dry_over_saturated_frozen)
    as (H1 & H2 & H3 & _ & _).
  destruct dry_over_saturated_cascade as (E1 & E2 & E3).
  destruct dry_over_saturated_before_rise as (F1 & F2 & F3).
  destruct dry_over_saturated_after as (G1 & G2 & G3).
  apply passes_intro.
  - unfold availWaterInfiltration_183. simpl. lra.
  - unfold topwater_193, topwater_189. simpl. lra.
  - rewrite E1, E2, E3. lra.
  - rewrite H1, H2, H3, E1, E2, E3. lra.
  - rewrite F1, F2. lra.
  - unfold w1_427, w2_428, w3_429.
    rewrite dry_over_saturated_capRise1, dry_over_saturated_capRise2, F1, F2, F3.
    simpl. lra.
  - rewrite G1, G2, G3. lra.
Qed.

(** C2, the code at the failing input: the storages of the column are
    within their bounds before the step, no assertion fails, and layer 2
    ends at 0.004 m, below its residual storage of 0.005 m, because the
    rise into layer 1 is capped by [kunSatFC12] only and not, as the
    rise out of layer 3 is, by the water available in the layer it
    leaves. *)
Theorem capillary_rise_below_residual :
  (wres1 dry_over_saturated <= w1 dry_over_saturated <= ws1 dry_over_saturated /\
   wres2 dry_over_saturated <= w2 dry_over_saturated <= ws2 dry_over_saturated /\
   wres3 dry_over_saturated <= w3 dry_over_saturated <= ws3 dry_over_saturated /\
   0 <= topwater dry_over_saturated) /\
  dynamic thresholds [dry_over_saturated]
  = Returned [result thresholds dry_over_saturated] /\
  capRise1 thresholds dry_over_saturated = 0.016 /\
  availWater2_391 thresholds dry_over_saturated = 0.015 /\
  post_w2 (result thresholds dry_over_saturated) = 0.004 /\
  post_w2 (result thresholds dry_over_saturated) < wres2 dry_over_saturated.
Proof.
  destruct dry_over_saturated_after as (_ & G2 & _).
  destruct dry_over_saturated_before_rise as (_ & F2 & _).
  split; [simpl; lra |].
  split; [| split; [apply dry_over_saturated_capRise1 | split; [| split]]].
  - apply dynamic_Returned. split; [| reflexivity].
    apply Forall_cons; [apply dry_over_saturated_passes | apply Forall_nil].
  - unfold availWater2_391. rewrite F2. simpl. np_lra.
  - exact G2.
  - simpl post_w2. rewrite G2. simpl. lra.
Qed.

(** *** A second way below the residual storage: frozen soil

    The loop lets layer 3 drain to groundwater the water that arrived
    from layer 2 in an earlier sub-step.  After the loop the flux from
    layer 2 is set to zero in frozen soil; the flux to groundwater is
    not. *)

Lemma power_lt_one (x y : R) : x < 1 -> 0 < y -> Np.power x y < 1.
Proof.
  intros Hx Hy. unfold Np.power. destruct (Rlt_dec 0 x) as [Hpos | Hneg].
  - unfold Rpower. rewrite <- exp_0. apply exp_increasing.
    assert (Hln : ln x < 0) by (rewrite <- ln_1; apply ln_increasing; lra).
    nra.
  - destruct (Req_dec_T y 0); lra.
Qed.

Lemma kUnSat_pos (K lam s : R) :
  0 < K -> 0 < lam -> 0 < s <= 1 -> 0 < kUnSat K lam s.
Proof.
  intros HK Hlam [Hs0 Hs1].
  assert (Hm : 0 < lam / (lam + 1)) by (apply Rdiv_lt_0_compat; lra).
  assert (Hinv : 0 < 1 / (lam / (lam + 1))) by (apply Rdiv_lt_0_compat; lra).
  assert (Hu : 1 - Np.power s (1 / (lam / (lam + 1))) < 1).
  { assert (0 < Np.power s (1 / (lam / (lam + 1)))); [| lra].
    unfold Np.power. destruct (Rlt_dec 0 s); [| lra].
    unfold Rpower. apply exp_pos. }
  pose proof (power_lt_one _ _ Hu Hm) as Hv.
  unfold kUnSat, Np.square.
  apply Rmult_lt_0_compat; [apply Rmult_lt_0_compat |].
  - exact HK.
  - apply sqrt_lt_R0. exact Hs0.
  - apply Rmult_lt_0_compat; lra.
Qed.

Lemma loop_body_perc3toGW_grows (g : Globals) (c : Cell) (a1 a2 a3 : R)
      (s : SubStep) (i : nat) :
  (0 <= KSat1 c /\ 0 <= KSat2 c /\ 0 <= KSat3 c) ->
  0 <= capriseindex c <= 1 ->
  percolating c a1 a2 a3 s ->
  perc3toGW s <= perc3toGW (loop_body g c s i).
Proof.
  intros (_ & _ & HK3) Hcri ((_ & _ & Ha3) & _).
  unfold loop_body. cbv zeta. simpl.
  set (k3 := (if (0 <? i)%nat then kUnSat (KSat3 c) (lambda3 c) _
              else kUnSat3_460 g c) * DtSub).
  assert (Hk3 : 0 <= k3).
  { unfold k3, kUnSat3_460. apply Rmult_le_pos; [| pose proof DtSub_pos; lra].
    destruct (0 <? i)%nat; apply kUnSat_nonneg; assumption. }
  clearbody k3.
  set (m3 := Np.minimum (availWater3 s) (Np.minimum k3 (availWater3 s))).
  assert (H3 : 0 <= m3) by (unfold m3; np_lra).
  clearbody m3. nra.
Qed.

Lemma frozen_draining_frozen : frozen thresholds frozen_draining = true.
Proof. apply gtb_true. simpl. lra. Qed.

Lemma frozen_draining_before_loop :
  w1_427 thresholds frozen_draining = 0.005 /\
  w2_428 thresholds frozen_draining = 0.02 /\
  w3_429 thresholds frozen_draining = 0.02.
Proof.
  destruct (frozen_storages thresholds frozen_draining eq_refl
                            frozen_draining_frozen)
    as (_ & _ & H3 & H1 & H2).
  assert (Hcascade : w1_214 frozen_draining = 0.005 /\
                     w2_211 frozen_draining = 0.02 /\
                     w3_208 frozen_draining = 0.02).
  { unfold w1_214, w1_210, w2_211, w2_207, w3_208, w3_205, bioarea. simpl.
    repeat split; np_lra. }
  destruct Hcascade as (E1 & E2 & E3).
  assert (Hc1 : capRise1 thresholds frozen_draining = 0).
  { unfold capRise1. simpl.
    generalize ((1 - satTermFC1 thresholds frozen_draining)
                * kUnSat2_407 thresholds frozen_draining).
    intros x. np_lra. }
  assert (Hc2 : capRise2_418 thresholds frozen_draining = 0).
  { assert (Ha : availWater3_392 thresholds frozen_draining = 0).
    { unfold availWater3_392. rewrite H3, E3. simpl. np_lra. }
    unfold capRise2_418, capRise2_416. rewrite Ha. simpl.
    generalize ((1 - satTermFC2 thresholds frozen_draining)
                * kUnSat3_408 thresholds frozen_draining).
    intros x. np_lra. }
  unfold w1_427, w2_428, w3_429. rewrite Hc1, Hc2, H1, H2, H3, E1, E2, E3.
  simpl. repeat split; lra.
Qed.

Lemma DtSub_third : DtSub = 1 / 3.
Proof. unfold DtSub, NoSubSteps. simpl. f_equal. lra. Qed.

Lemma frozen_draining_loop_init :
  availWater1_440 thresholds frozen_draining = 0 /\
  availWater2_441 thresholds frozen_draining = 0.015 /\
  availWater3_442 thresholds frozen_draining = 0 /\
  capLayer2_445 thresholds frozen_draining = 0 /\
  capLayer3_446 thresholds frozen_draining = 0.08 /\
  kUnSat2_459 thresholds frozen_draining = 0.5 /\
  kUnSat3_460 thresholds frozen_draining = 0.
Proof.
  destruct frozen_draining_before_loop as (E1 & E2 & E3).
  assert (H1 : availWater1_440 thresholds frozen_draining = 0).
  { unfold availWater1_440. rewrite E1. simpl. np_lra. }
  assert (H2 : availWater2_441 thresholds frozen_draining = 0.015).
  { unfold availWater2_441. rewrite E2. simpl. np_lra. }
  assert (H3 : availWater3_442 thresholds frozen_draining = 0).
  { unfold availWater3_442. rewrite E3. simpl. np_lra. }
  repeat split; try assumption.
  - unfold capLayer2_445. rewrite E2. simpl. lra.
  - unfold capLayer3_446. rewrite E3. simpl. lra.
  - unfold kUnSat2_459, satTerm2_454. rewrite H2. simpl.
    replace (clamp01 (0.015 / (0.02 - 0.005))) with 1.
    + apply kUnSat_saturated. lra.
    + replace (0.015 / (0.02 - 0.005)) with 1 by lra. np_lra.
  - unfold kUnSat3_460, satTerm3_455. rewrite H3. simpl.
    replace (clamp01 (0 / (0.1 - 0.02))) with 0.
    + apply kUnSat_dry.
    + replace (0 / (0.1 - 0.02)) with 0 by lra. np_lra.
Qed.

Lemma frozen_draining_percolating :
  percolating frozen_draining 0 0.015 0
              (loop_init thresholds frozen_draining).
Proof.
  destruct frozen_draining_loop_init as (H1 & H2 & H3 & H4 & H5 & _).
  unfold percolating, loop_init. simpl. rewrite H1, H2, H3, H4, H5.
  repeat split; try lra.
Qed.

(** The first sub-step moves all the water layer 2 holds above its
    residual storage into layer 3. *)
Lemma frozen_draining_first_substep :
  let s1 := loop_body thresholds frozen_draining
                      (loop_init thresholds frozen_draining) 0 in
  availWater3 s1 = 0.015 /\ wtemp3 s1 = 0.035 /\ perc3toGW s1 = 0.
Proof.
  destruct frozen_draining_loop_init as (H1 & H2 & H3 & H4 & H5 & H6 & H7).
  unfold loop_body, loop_init. cbv zeta. simpl.
  rewrite H2, H3, H5, H6, H7, DtSub_third.
  repeat split; np_lra.
Qed.

(** The second sub-step drains part of it to groundwater. *)
Lemma frozen_draining_second_substep :
  let s1 := loop_body thresholds frozen_draining
                      (loop_init thresholds frozen_draining) 0 in
  0 < perc3toGW (loop_body thresholds frozen_draining s1 1).
Proof.
  destruct frozen_draining_first_substep as (Ha & Hw & Hp).
  cbv zeta.
  generalize dependent (loop_body thresholds frozen_draining
                                  (loop_init thresholds frozen_draining) 0).
  intros s1 Ha Hw Hp.
  unfold loop_body. cbv zeta. simpl.
  rewrite Ha, Hw, Hp.
  set (k3 := kUnSat 0.25 1 _).
  assert (Hk3 : 0 < k3).
  { unfold k3. apply kUnSat_pos; try lra.
    replace (Np.maximum 0 (0.035 - 0.02) / (0.1 - 0.02)) with 0.1875.
    - np_lra.
    - replace (Np.maximum 0 (0.035 - 0.02)) with 0.015 by np_lra. lra. }
  clearbody k3.
  pose proof DtSub_pos as Hdt.
  assert (Hflux : 0 < k3 * DtSub) by (apply Rmult_lt_0_compat; assumption).
  generalize dependent (k3 * DtSub). intros x Hx. np_lra.
Qed.

(** C2, a second input at which the code leaves the bounds: the
    storages are within their bounds before the step, no assertion
    fails, and layer 3, which started at its residual storage, ends
    below it. *)
Lemma frozen_drains_below_residual :
  (wres1 frozen_draining <= w1 frozen_draining <= ws1 frozen_draining /\
   wres2 frozen_draining <= w2 frozen_draining <= ws2 frozen_draining /\
   wres3 frozen_draining <= w3 frozen_draining <= ws3 frozen_draining) /\
  dynamic thresholds [frozen_draining]
  = Returned [result thresholds frozen_draining] /\
  post_w3 (result thresholds frozen_draining) < wres3 frozen_draining.
Proof.
  pose proof frozen_draining_frozen as Hfrozen.
  destruct frozen_draining_before_loop as (E1 & E2 & E3).
  pose proof (frozen_perc thresholds frozen_draining Hfrozen) as (H12 & H23).
  assert (HK : 0 <= KSat1 frozen_draining /\ 0 <= KSat2 frozen_draining /\
               0 <= KSat3 frozen_draining) by (simpl; lra).
  assert (Hcri : 0 <= capriseindex frozen_draining <= 1) by (simpl; lra).
  set (s1 := loop_body thresholds frozen_draining
                       (loop_init thresholds frozen_draining) 0).
  set (s2 := loop_body thresholds frozen_draining s1 1).
  assert (Hinv1 : percolating frozen_draining 0 0.015 0 s1)
    by (apply loop_body_percolating; auto using frozen_draining_percolating).
  assert (Hinv2 : percolating frozen_draining 0 0.015 0 s2)
    by (apply loop_body_percolating; assumption).
  assert (Hend : loop_end thresholds frozen_draining
                 = loop_body thresholds frozen_draining s2 2) by reflexivity.
  assert (Hinv3 : percolating frozen_draining 0 0.015 0
                              (loop_end thresholds frozen_draining)).
  { rewrite Hend. apply loop_body_percolating; assumption. }
  assert (Hpos : 0 < perc3toGW (loop_end thresholds frozen_draining)).
  { rewrite Hend.
    pose proof (loop_body_perc3toGW_grows thresholds frozen_draining
                  0 0.015 0 s2 2 HK Hcri Hinv2) as Hgrow.
    pose proof frozen_draining_second_substep as Hsecond.
    cbv zeta in Hsecond. fold s1 in Hsecond. fold s2 in Hsecond. lra. }
  destruct Hinv3 as ((Ha1 & Ha2 & Ha3) & _ & _ & (Hb1 & Hb2 & Hb3)
                     & (Hp1 & Hp2 & Hp3) & _).
  assert (H556 : w1_556 thresholds frozen_draining = 0.005).
  { unfold w1_556. rewrite H12, E1. simpl. lra. }
  assert (H558 : w2_558 thresholds frozen_draining = 0.02).
  { unfold w2_558. rewrite H12, H23, E2. simpl. lra. }
  assert (H560 : w3_560 thresholds frozen_draining
                 = 0.02 - perc3toGW (loop_end thresholds frozen_draining)).
  { unfold w3_560, perc3toGW_521. rewrite H23, E3. simpl. lra. }
  assert (Hdrained : 0 < perc3toGW (loop_end thresholds frozen_draining) <= 0.015)
    by lra.
  clear - Hfrozen H556 H558 H560 E1 E2 E3 Hdrained.
  split; [simpl; lra | split].
  - apply dynamic_Returned. split; [| reflexivity].
    apply Forall_cons; [| apply Forall_nil].
    destruct (frozen_storages thresholds frozen_draining eq_refl Hfrozen)
      as (F1 & F2 & F3 & F4 & F5).
    assert (Hcascade : w1_214 frozen_draining = 0.005 /\
                       w2_211 frozen_draining = 0.02 /\
                       w3_208 frozen_draining = 0.02).
    { unfold w1_214, w1_210, w2_211, w2_207, w3_208, w3_205, bioarea. simpl.
      repeat split; np_lra. }
    destruct Hcascade as (C1 & C2 & C3).
    apply passes_intro.
    + unfold availWaterInfiltration_183. simpl. lra.
    + unfold topwater_193, topwater_189. simpl. lra.
    + rewrite C1, C2, C3. lra.
    + rewrite F1, F2, F3, C1, C2, C3. lra.
    + rewrite F4, F5, C1, C2. lra.
    + rewrite E1, E2, E3. lra.
    + rewrite H556, H558, H560. lra.
  - simpl post_w3. rewrite H560.
    change (wres3 frozen_draining) with 0.02. lra.
Qed.

(** * Further properties of [dynamic] and [initial] *)

(** ** Bounds on well-formed input *)

(** Three columns on which a run returns. *)
Lemma three_columns_admissible :
  Forall (admissible thresholds) [forest; paddy_flooded; sealed].
Proof.
  apply Forall_cons; [| apply Forall_cons; [| apply Forall_cons; [| apply Forall_nil]]].
  - apply admissible_active; [reflexivity | column_wf].
  - apply admissible_active; [reflexivity | column_wf].
  - apply admissible_outside; [reflexivity | ..];
      unfold availWaterInfiltration_183; simpl; lra.
Qed.

Lemma topwater_372_nonneg (g : Globals) (c : Cell) :
  0 <= topwater_193 c -> 0 <= topwater_372 g c.
Proof.
  intros Htop. unfold topwater_372, topwater_367.
  destruct (paddy_irrigated_land c); [np_lra | exact Htop].
Qed.

(** X2: on a well-formed active cell the step leaves every layer at or
    above its residual storage, layers 2 and 3 at or below their
    capacity, and the ponded water not negative. *)
Theorem storages_stay_in_bounds (g : Globals) (c : Cell) :
  bioarea c = true ->
  wellformed g c ->
  wres1 c <= post_w1 (result g c) /\
  wres2 c <= post_w2 (result g c) <= ws2 c /\
  wres3 c <= post_w3 (result g c) <= ws3 c /\
  0 <= post_topwater (result g c).
Proof.
  intros Hbio Hwf. simpl.
  pose proof (wf_percolated g c Hbio Hwf) as (H1 & H2 & H3).
  repeat split; try lra.
  apply topwater_372_nonneg, (wf_topwater_193 g c Hwf).
Qed.

Lemma storages_stay_in_bounds_witness :
  wres2 forest <= post_w2 (result thresholds forest) <= ws2 forest.
Proof.
  refine (proj1 (proj2 (storages_stay_in_bounds thresholds forest _ _))).
  - reflexivity.
  - column_wf.
Defined.

(** ** The returned fluxes *)

Lemma saverunofffromGW_nonneg (c : Cell) : 0 <= saverunofffromGW c.
Proof. unfold saverunofffromGW. np_lra. Qed.

Lemma directRunoff_370_nonneg (g : Globals) (c : Cell) :
  0 <= directRunoff_370 g c.
Proof.
  unfold directRunoff_370, h, directRunoff_363.
  destruct (paddy_irrigated_land c); destruct (bioarea c);
    try destruct (flooded c); np_lra.
Qed.

(** X3: on a well-formed active cell with an impeded fraction in [0,1]
    and a reference evaporation that is not negative, the six returned
    fluxes are not negative (outside paddy fields the open-water
    evaporation is the one handed in, so it has to be non-negative on
    entry). *)
Theorem returned_fluxes_nonnegative (g : Globals) (c : Cell) :
  bioarea c = true ->
  wellformed g c ->
  0 <= percolationImp c <= 1 ->
  0 <= EWRef c ->
  (paddy_irrigated_land c = false -> 0 <= openWaterEvap c) ->
  0 <= ret_interflow (result g c) /\
  0 <= ret_directRunoff (result g c) /\
  0 <= ret_groundwater_recharge (result g c) /\
  0 <= ret_perc3toGW (result g c) /\
  0 <= ret_prefFlow (result g c) /\
  0 <= ret_openWaterEvap (result g c).
Proof.
  intros Hbio Hwf Himp Hew Howe. simpl.
  pose proof (wf_loop_end g c Hbio Hwf) as (_ & _ & _ & _ & (_ & _ & Hgw) & _).
  pose proof (wf_prefFlow g c Hbio Hwf) as [Hpf _].
  pose proof (saverunofffromGW_nonneg c) as Hsave.
  pose proof (directRunoff_370_nonneg g c) as Hrun.
  assert (H521 : 0 <= perc3toGW_521 g c)
    by (unfold perc3toGW_521; rewrite Hbio; exact Hgw).
  assert (Hsum : 0 <= toGWorInterflow g c) by (unfold toGWorInterflow; lra).
  repeat split.
  - unfold interflow. rewrite Hbio. apply Rmult_le_pos; lra.
  - unfold directRunoff_374. rewrite Hbio. lra.
  - unfold groundwater_recharge. rewrite Hbio. apply Rmult_le_pos; lra.
  - exact H521.
  - exact Hpf.
  - unfold openWaterEvap_192.
    destruct (paddy_irrigated_land c); [np_lra | apply Howe; reflexivity].
Qed.

Lemma returned_fluxes_nonnegative_witness :
  0 <= ret_directRunoff (result thresholds paddy_flooded).
Proof.
  refine (proj1 (proj2 (returned_fluxes_nonnegative thresholds paddy_flooded
                          _ _ _ _ _))).
  - reflexivity.
  - column_wf.
  - simpl. lra.
  - simpl. lra.
  - discriminate.
Defined.

(** The split of lines 594-600 hands on all of the deep flux. *)
Lemma recharge_split (g : Globals) (c : Cell) :
  bioarea c = true ->
  interflow g c + groundwater_recharge g c
  = perc3toGW_521 g c + prefFlow_352 g c.
Proof.
  intros Hbio. unfold interflow, groundwater_recharge, toGWorInterflow.
  rewrite Hbio. ring.
Qed.

(** The second balance differs from the first by what the accumulated
    evapotranspiration held on entry. *)
Lemma balance_617_exact (g : Globals) (c : Cell) (snowEvap interceptEvap : R) :
  bioarea c = true ->
  balance_617 c snowEvap interceptEvap (result g c)
  = balance c (result g c) + (snowEvap + interceptEvap - actualET c).
Proof.
  intros Hbio.
  pose proof (recharge_split g c Hbio) as Hsplit.
  unfold balance_617, balance, influxes_617, influxes, outfluxes_618, outfluxes.
  simpl. unfold actualET_584. rewrite Hbio. lra.
Qed.

(** X4: the balance of lines 615-622.  In a run that returns, with a
    maximum ponding depth that is not negative, an active cell that is
    a paddy field or was handed no open-water evaporation, and whose
    accumulated evapotranspiration on entry is the snow plus the
    interception evaporation, has influxes (with these two) minus direct
    runoff, interflow, groundwater recharge and accumulated
    evapotranspiration equal to the change of storage to within 1e-6. *)
Theorem evapotranspiration_balance
        (g : Globals) (cells : list Cell) (rs : list Result)
        (i : nat) (c : Cell) (r : Result) (snowEvap interceptEvap : R) :
  dynamic g cells = Returned rs ->
  nth_error cells i = Some c ->
  nth_error rs i = Some r ->
  bioarea c = true ->
  0 <= maxtopwater g ->
  (paddy_irrigated_land c = false -> openWaterEvap c = 0) ->
  actualET c = snowEvap + interceptEvap ->
  Rabs (balance_617 c snowEvap interceptEvap r) <= 1e-6.
Proof.
  intros Hrun Hc Hr Hbio Hmax Howe Het.
  destruct (dynamic_nth g cells rs i c Hrun Hc) as [Hpass Hr'].
  assert (r = result g c) by congruence. subst r.
  rewrite (balance_617_exact g c _ _ Hbio), Het.
  rewrite (balance_exact g c Hbio (passes_195 g c Hpass) Hmax).
  pose proof (availWaterInfiltration_185_close c (passes_184 g c Hpass)) as Hclose.
  rewrite Rabs_minus_sym in Hclose.
  replace (snowEvap + interceptEvap - (snowEvap + interceptEvap)) with 0 by ring.
  rewrite Rplus_0_r.
  destruct (paddy_irrigated_land c).
  - rewrite Rminus_0_r. exact Hclose.
  - rewrite (Howe eq_refl), Rminus_0_r. exact Hclose.
Qed.

Lemma evapotranspiration_balance_witness :
  Rabs (balance_617 forest 0 0 (result thresholds forest)) <= 1e-6.
Proof.
  apply (evapotranspiration_balance thresholds [forest; paddy_flooded; sealed]
           (map (result thresholds) [forest; paddy_flooded; sealed]) 0 forest).
  - apply dynamic_completes, three_columns_admissible.
  - reflexivity.
  - reflexivity.
  - reflexivity.
  - simpl. lra.
  - reflexivity.
  - simpl. lra.
Defined.

(** ** Transpiration and evaporation *)

Lemma etpotMax_range (c : Cell) : 0 <= totalPotET c -> 0 <= etpotMax c <= 1.
Proof. intros Hpot. unfold etpotMax. np_lra. Qed.

(** X5: the comment of line 233.  On irrigated land with a potential
    evapotranspiration that is not negative, the depletion fraction of
    lines 230-232 lies between 0.14 and 0.77, so the clamp of line 256
    leaves it as it is. *)
Theorem irrigated_depletion_fraction (c : Cell) :
  irrigated_land c = true ->
  0 <= totalPotET c ->
  0.14 <= p_232 c <= 0.77 /\ p_256 c = p_232 c.
Proof.
  intros Hirr Hpot.
  pose proof (etpotMax_range c Hpot) as [He0 He1].
  assert (Hrange : 0.14 <= p_232 c <= 0.77).
  { unfold p_232, p_230. set (e := etpotMax c) in *.
    assert (Hd : 0 < 0.76 + 1.5 * e) by lra.
    assert (Hinv : 0 < / (0.76 + 1.5 * e)) by (apply Rinv_0_lt_compat; exact Hd).
    assert (Hone : (0.76 + 1.5 * e) * / (0.76 + 1.5 * e) = 1)
      by (apply Rinv_r; lra).
    unfold Rdiv. rewrite Rmult_1_l.
    set (q := / (0.76 + 1.5 * e)) in *.
    split; nra. }
  split; [exact Hrange |].
  unfold p_256, p_251. rewrite Hirr. np_lra.
Qed.

Lemma irrigated_depletion_fraction_witness :
  0.14 <= p_232 paddy_flooded <= 0.77.
Proof.
  refine (proj1 (irrigated_depletion_fraction paddy_flooded _ _)).
  - reflexivity.
  - simpl. lra.
Defined.

(** X6: transpiration only takes water out, and takes none that lies
    below the wilting point: each layer of an active cell ends the
    extraction no higher than it was and no lower than the smaller of
    its storage and its wilting-point storage. *)
Theorem transpiration_floor (g : Globals) (c : Cell) :
  bioarea c = true ->
  (0 <= ta1 g c /\ 0 <= ta2 g c /\ 0 <= ta3 g c) /\
  Rmin (w1_214 c) (wwp1 c) <= w1_294 g c <= w1_214 c /\
  Rmin (w2_211 c) (wwp2 c) <= w2_295 g c <= w2_211 c /\
  Rmin (w3_208 c) (wwp3 c) <= w3_296 g c <= w3_208 c.
Proof.
  intros Hbio. unfold w1_294, w2_295, w3_296, ta1, ta2, ta3. rewrite Hbio.
  generalize (TaMax_286 g c * adjRoot0 c), (TaMax_286 g c * adjRoot1 c),
             (TaMax_286 g c * adjRoot2 c).
  intros x y z. repeat split; np_lra.
Qed.

Lemma transpiration_floor_witness :
  Rmin (w1_214 forest) (wwp1 forest) <= w1_294 thresholds forest <= w1_214 forest.
Proof.
  refine (proj1 (proj2 (transpiration_floor thresholds forest _))).
  reflexivity.
Defined.

Lemma rws_weighted (x a : R) :
  0 <= a -> 0 <= Np.maximum (Np.minimum 1 x) 0 * a <= a.
Proof.
  intros Ha.
  assert (Hc : 0 <= Np.maximum (Np.minimum 1 x) 0 <= 1) by np_lra.
  nra.
Qed.

(** X7: with root weights that are not negative and add up to at most
    1, and a potential transpiration that is not negative, the maximum
    transpiration of lines 278-286 and the actual transpiration of line
    302 stay between 0 and the potential transpiration. *)
Theorem transpiration_within_potential (g : Globals) (c : Cell) :
  bioarea c = true ->
  0 <= adjRoot0 c -> 0 <= adjRoot1 c -> 0 <= adjRoot2 c ->
  adjRoot0 c + adjRoot1 c + adjRoot2 c <= 1 ->
  0 <= potTranspiration c ->
  0 <= TaMax_286 g c <= potTranspiration c /\
  0 <= post_actTransTotal (result g c) <= potTranspiration c.
Proof.
  intros Hbio Ha0 Ha1 Ha2 Hsum Hpot.
  pose proof (rws_weighted (rws1_267 c) (adjRoot0 c) Ha0) as Hr1.
  pose proof (rws_weighted (rws2_268 c) (adjRoot1 c) Ha1) as Hr2.
  pose proof (rws_weighted (rws3_269 c) (adjRoot2 c) Ha2) as Hr3.
  fold (rws1_274 c) in Hr1. fold (rws2_275 c) in Hr2.
  fold (rws3_276 c) in Hr3.
  assert (H278 : 0 <= TaMax_278 c <= potTranspiration c).
  { unfold TaMax_278. split; nra. }
  assert (H286 : 0 <= TaMax_286 g c <= potTranspiration c).
  { unfold TaMax_286. destruct (frozen g c); simpl; lra. }
  split; [exact H286 |]. simpl.
  unfold actTransTotal_302. rewrite Hbio.
  set (T := TaMax_286 g c) in *.
  assert (Ht1 : 0 <= ta1 g c <= T * adjRoot0 c).
  { unfold ta1. fold T. assert (0 <= T * adjRoot0 c) by nra. np_lra. }
  assert (Ht2 : 0 <= ta2 g c <= T * adjRoot1 c).
  { unfold ta2. fold T. assert (0 <= T * adjRoot1 c) by nra. np_lra. }
  assert (Ht3 : 0 <= ta3 g c <= T * adjRoot2 c).
  { unfold ta3. fold T. assert (0 <= T * adjRoot2 c) by nra. np_lra. }
  split; [lra |].
  assert (Htot : T * adjRoot0 c + T * adjRoot1 c + T * adjRoot2 c <= T) by nra.
  lra.
Qed.

Lemma transpiration_within_potential_witness :
  0 <= post_actTransTotal (result thresholds forest) <= potTranspiration forest.
Proof.
  refine (proj2 (transpiration_within_potential thresholds forest _ _ _ _ _ _));
    try reflexivity; simpl; lra.
Defined.

(** X8: with a potential bare-soil evaporation and a reference
    open-water evaporation that are not negative, the actual bare-soil
    evaporation of an active cell lies between 0 and the potential, is
    zero on a paddy field that holds ponded water, and leaves layer 1 no
    lower than the smaller of its storage and its residual storage. *)
Theorem evaporation_limits (g : Globals) (c : Cell) :
  bioarea c = true ->
  0 <= potBareSoilEvap c ->
  0 <= EWRef c ->
  0 <= post_actBareSoilEvap (result g c) <= potBareSoilEvap c /\
  (paddy_irrigated_land c = true -> 0 < topwater_193 c ->
   post_actBareSoilEvap (result g c) = 0) /\
  Rmin (w1_294 g c) (wres1 c) <= w1_316 g c <= w1_294 g c.
Proof.
  intros Hbio Hpot Hew. simpl.
  assert (H201 : 0 <= potBareSoilEvap_201 c <= potBareSoilEvap c).
  { unfold potBareSoilEvap_201, openWaterEvap_192.
    destruct (paddy_irrigated_land c); np_lra. }
  unfold w1_316, actBareSoilEvap_314, actBareSoilEvap_311, actBareSoilEvap_309.
  rewrite Hbio.
  generalize dependent (potBareSoilEvap_201 c). intros pot Hrange.
  repeat split;
    try (intros Hpaddy Hponded; rewrite Hpaddy);
    destruct (paddy_irrigated_land c); destruct (frozen g c); np_lra.
Qed.

Lemma evaporation_limits_witness :
  0 <= post_actBareSoilEvap (result thresholds forest) <= potBareSoilEvap forest.
Proof.
  refine (proj1 (evaporation_limits thresholds forest _ _ _));
    try reflexivity; simpl; lra.
Defined.

(** ** The surface: infiltration, runoff and ponding *)

(** X9: on an active cell that is no paddy field the returned direct
    runoff is the runoff of line 363 plus the groundwater excess
    [saverunofffromGW], so never less than that excess.  In exact real
    arithmetic the runoff of line 363 is precisely what infiltration
    and preferential flow leave of the available water, the three
    adding up to it: the floor at 0 of line 363 has then nothing to
    cut, and what it cuts in the float arrays is rounding residue. *)
Theorem available_water_partition (g : Globals) (c : Cell) :
  bioarea c = true ->
  paddy_irrigated_land c = false ->
  infiltration_360 g c + ret_prefFlow (result g c) + directRunoff_363 g c
  = availWaterInfiltration_185 c /\
  ret_directRunoff (result g c)
  = availWaterInfiltration_185 c - infiltration_360 g c
    - ret_prefFlow (result g c) + saverunofffromGW c /\
  ret_directRunoff (result g c) = directRunoff_363 g c + saverunofffromGW c /\
  0 <= directRunoff_363 g c /\
  saverunofffromGW c <= ret_directRunoff (result g c).
Proof.
  intros Hbio Hpaddy. simpl.
  pose proof (availWaterInfiltration_185_nonneg c) as Ha.
  assert (H198 : availWaterInfiltration_198 c = availWaterInfiltration_185 c).
  { unfold availWaterInfiltration_198. rewrite Hpaddy. reflexivity. }
  assert (Hsum : infiltration_360 g c + prefFlow_352 g c + directRunoff_363 g c
                 = availWaterInfiltration_185 c).
  { unfold directRunoff_363. rewrite Hbio, H198.
    destruct (frozen g c) eqn:Hfrozen.
    - rewrite (frozen_prefFlow g c Hfrozen), (frozen_infiltration g c Hfrozen).
      np_lra.
    - unfold infiltration_360, infiltration_358. rewrite Hbio, Hfrozen, H198.
      generalize (potInf g c), (prefFlow_352 g c). intros x y. np_lra. }
  assert (Hfloor : 0 <= directRunoff_363 g c).
  { unfold directRunoff_363. rewrite Hbio. np_lra. }
  assert (Hret : directRunoff_374 g c = directRunoff_363 g c + saverunofffromGW c).
  { unfold directRunoff_374, directRunoff_370. rewrite Hbio, Hpaddy. reflexivity. }
  split; [exact Hsum |].
  split; [rewrite Hret; lra |].
  split; [exact Hret |].
  split; [exact Hfloor |].
  rewrite Hret. lra.
Qed.

Lemma available_water_partition_witness :
  infiltration_360 thresholds forest + ret_prefFlow (result thresholds forest)
  + directRunoff_363 thresholds forest
  = availWaterInfiltration_185 forest.
Proof.
  refine (proj1 (available_water_partition thresholds forest _ _)); reflexivity.
Defined.

(** X10: a paddy field with crop coefficient at most 0.75 keeps no
    ponded water: what was ponded, after evaporation, and what arrives
    is all shared between infiltration and runoff, and the ponded water
    is zero after the step. *)
Theorem drained_paddy_empties (g : Globals) (c : Cell) :
  paddy_irrigated_land c = true ->
  cropKC c <= 0.75 ->
  0 <= topwater_193 c ->
  infiltration_360 g c + directRunoff_370 g c
  = topwater_193 c + availWaterInfiltration_185 c /\
  post_topwater (result g c) = 0.
Proof.
  intros Hpaddy Hkc Htop. simpl.
  assert (Hdry : flooded c = false) by (apply gtb_false; exact Hkc).
  pose proof (paddy_bioarea c Hpaddy) as Hbio.
  pose proof (availWaterInfiltration_185_nonneg c) as Ha.
  pose proof (paddy_prefFlow g c Hbio Hpaddy) as Hpf.
  assert (H198 : availWaterInfiltration_198 c
                 = topwater_193 c + availWaterInfiltration_185 c).
  { unfold availWaterInfiltration_198. rewrite Hpaddy, Hdry. reflexivity. }
  assert (Hle : infiltration_360 g c <= availWaterInfiltration_198 c).
  { assert (Hpos : 0 <= availWaterInfiltration_198 c - prefFlow_352 g c)
      by (rewrite Hpf, H198; lra).
    pose proof (infiltration_le g c Hbio Hpos). lra. }
  unfold topwater_372, topwater_367, directRunoff_370, directRunoff_363.
  rewrite Hbio, Hpaddy, Hdry, Hpf.
  rewrite H198 in *.
  generalize dependent (infiltration_360 g c). intros x Hx.
  split; np_lra.
Qed.

Lemma drained_paddy_empties_witness :
  post_topwater (result thresholds paddy_drained) = 0.
Proof.
  refine (proj2 (drained_paddy_empties thresholds paddy_drained _ _ _)).
  - reflexivity.
  - simpl. lra.
  - apply (wf_topwater_193 thresholds). column_wf.
Defined.

(** X11: on a flooded paddy field (crop coefficient above 0.75) with a
    maximum ponding depth that is not negative, the ponded water after
    the step is the smaller of the ponded water left by infiltration and
    the maximum depth: it never exceeds the maximum, and the runoff of
    line 370 is exactly what was cut off. *)
Theorem flooded_paddy_capped (g : Globals) (c : Cell) :
  paddy_irrigated_land c = true ->
  0.75 < cropKC c ->
  0 <= maxtopwater g ->
  post_topwater (result g c) = Rmin (topwater_367 g c) (maxtopwater g) /\
  0 <= post_topwater (result g c) <= maxtopwater g /\
  post_topwater (result g c) + directRunoff_370 g c = topwater_367 g c.
Proof.
  intros Hpaddy Hkc Hmax. simpl.
  assert (Hflood : flooded c = true) by (apply gtb_true; exact Hkc).
  assert (H367 : 0 <= topwater_367 g c).
  { unfold topwater_367. rewrite Hpaddy. np_lra. }
  unfold topwater_372, directRunoff_370, h. rewrite Hpaddy, Hflood.
  generalize dependent (topwater_367 g c). intros tw Htw.
  repeat split; np_lra.
Qed.

Lemma flooded_paddy_capped_witness :
  0 <= post_topwater (result thresholds paddy_flooded) <= maxtopwater thresholds.
Proof.
  refine (proj1 (proj2 (flooded_paddy_capped thresholds paddy_flooded _ _ _))).
  - reflexivity.
  - simpl. lra.
  - simpl. lra.
Defined.

(** X12: frozen soil sheds what arrives.  On a frozen active cell that
    is no paddy field nothing infiltrates and nothing bypasses the soil:
    the returned direct runoff is all of the available water plus the
    groundwater excess, and interflow and recharge share the percolation
    to groundwater alone. *)
Theorem frozen_soil_sheds_water (g : Globals) (c : Cell) :
  bioarea c = true ->
  paddy_irrigated_land c = false ->
  FrostIndexThreshold g < FrostIndex c ->
  ret_directRunoff (result g c)
  = availWaterInfiltration_185 c + saverunofffromGW c /\
  ret_interflow (result g c) + ret_groundwater_recharge (result g c)
  = ret_perc3toGW (result g c).
Proof.
  intros Hbio Hpaddy Hfrost. apply frozen_spec in Hfrost. simpl.
  pose proof (availWaterInfiltration_185_nonneg c) as Ha.
  split.
  - unfold directRunoff_374, directRunoff_370, directRunoff_363,
      availWaterInfiltration_198.
    rewrite Hbio, Hpaddy, (frozen_prefFlow g c Hfrost),
      (frozen_infiltration g c Hfrost).
    np_lra.
  - rewrite (recharge_split g c Hbio), (frozen_prefFlow g c Hfrost). lra.
Qed.

Lemma frozen_soil_sheds_water_witness :
  ret_directRunoff (result thresholds forest_frozen)
  = availWaterInfiltration_185 forest_frozen + saverunofffromGW forest_frozen.
Proof.
  refine (proj1 (frozen_soil_sheds_water thresholds forest_frozen _ _ _)).
  - reflexivity.
  - reflexivity.
  - simpl. lra.
Defined.

(** X13: in exact real arithmetic, on a well-formed active cell,
    infiltration fits into the room the two upper layers have left: it
    is no more than the available water less the preferential flow and
    no more than the free capacity, so that layer 2 is not
    over-saturated by the overflow of line 381. *)
Theorem infiltration_fits (g : Globals) (c : Cell) :
  bioarea c = true ->
  wellformed g c ->
  infiltration_360 g c <= availWaterInfiltration_198 c - ret_prefFlow (result g c) /\
  infiltration_360 g c <= (ws1 c + ws2 c) - (w1_316 g c + w2_295 g c) /\
  w1_382 g c <= ws1 c /\ w2_381 g c <= ws2 c.
Proof.
  intros Hbio Hwf. simpl.
  pose proof (wf_infiltration g c Hbio Hwf) as (H0 & H1 & H2).
  pose proof (wf_infiltrated g c Hbio Hwf) as (H3 & H4).
  unfold soilWaterStorageCap, soilWaterStorage in H2.
  repeat split; lra.
Qed.

Lemma infiltration_fits_witness :
  w2_381 thresholds forest <= ws2 forest.
Proof.
  refine (proj2 (proj2 (proj2 (infiltration_fits thresholds forest _ _)))).
  - reflexivity.
  - column_wf.
Defined.

(** X14: a saturated top soil takes no infiltration.  When the two
    upper layers of an active cell hold at least their joint capacity,
    the potential infiltration of line 336 is zero and nothing
    infiltrates. *)
Theorem saturated_topsoil_rejects_water (g : Globals) (c : Cell) :
  bioarea c = true ->
  0 < arnoBeta c ->
  0 < ws1 c + ws2 c ->
  ws1 c + ws2 c <= w1_316 g c + w2_295 g c ->
  0 <= capriseindex c <= 1 ->
  0 <= topwater_193 c ->
  potInf g c = 0 /\ infiltration_360 g c = 0.
Proof.
  intros Hbio Hbeta Hcap Hfull Hcri Htop.
  assert (Hrel : relSat_324 g c = 1).
  { assert (H323 : 1 <= relSat_323 g c).
    { unfold relSat_323, soilWaterStorage, soilWaterStorageCap, Rdiv.
      rewrite <- (Rinv_r (ws1 c + ws2 c)) by lra.
      apply Rmult_le_compat_r; [| exact Hfull].
      apply Rlt_le, Rinv_0_lt_compat, Hcap. }
    unfold relSat_324. np_lra. }
  assert (Hpb : 0 < potBeta c).
  { unfold potBeta. apply Rdiv_lt_0_compat; lra. }
  assert (Hpot : potInf g c = 0).
  { rewrite potInf_cell. unfold satAreaFrac_332, satAreaFrac_328.
    rewrite Hrel. replace (1 - 1) with 0 by lra.
    rewrite (power_zero _ Hbeta).
    replace (Np.maximum (Np.minimum (1 - 0) 1) 0) with 1 by np_lra.
    replace (1 - 1) with 0 by lra.
    rewrite (power_zero _ Hpb). lra. }
  split; [exact Hpot |].
  pose proof (availWaterInfiltration_185_nonneg c) as Ha.
  assert (H198 : 0 <= availWaterInfiltration_198 c).
  { unfold availWaterInfiltration_198.
    destruct (paddy_irrigated_land c); [| exact Ha].
    destruct (flooded c); simpl; lra. }
  assert (Hpf : prefFlow_352 g c <= availWaterInfiltration_198 c).
  { unfold prefFlow_352, prefFlow_348, prefFlow_347, prefFlow_346.
    rewrite Hbio, Hrel, power_one.
    destruct (paddy_irrigated_land c); [lra |].
    destruct (frozen g c); simpl; [lra | nra]. }
  unfold infiltration_360, infiltration_358. rewrite Hbio, Hpot.
  destruct (frozen g c); np_lra.
Qed.

Lemma saturated_topsoil_rejects_water_witness :
  potInf thresholds frozen_saturated = 0.
Proof.
  assert (Hbio : bioarea frozen_saturated = true) by reflexivity.
  assert (Hfrozen : frozen thresholds frozen_saturated = true)
    by (apply gtb_true; simpl; lra).
  refine (proj1 (saturated_topsoil_rejects_water thresholds frozen_saturated
                   Hbio _ _ _ _ _)).
  - simpl. lra.
  - simpl. lra.
  - destruct (frozen_storages thresholds frozen_saturated Hbio Hfrozen)
      as (H1 & H2 & _).
    assert (H316 : w1_316 thresholds frozen_saturated = w1_214 frozen_saturated).
    { unfold w1_316.
      rewrite Hbio, (frozen_actBareSoilEvap thresholds _ Hfrozen Hbio), H1. lra. }
    rewrite H316, H2.
    unfold w1_214, w1_210, w2_211, w2_207, w3_205, bioarea. simpl. np_lra.
  - simpl. lra.
  - unfold topwater_193, topwater_189. simpl. lra.
Defined.

(** ** Conductivity, capillary rise and percolation *)

Lemma power_unit_interval (x y : R) :
  0 <= x <= 1 -> 0 <= y -> 0 <= Np.power x y <= 1.
Proof.
  intros [_ Hx] Hy. split; [apply power_nonneg | apply power_le_one; assumption].
Qed.

Lemma kUnSat_le_KSat (K lam s : R) :
  0 <= K -> 0 < lam -> 0 <= s <= 1 -> kUnSat K lam s <= K.
Proof.
  intros HK Hlam [Hs0 Hs1].
  assert (Hm : 0 < lam / (lam + 1)) by (apply Rdiv_lt_0_compat; lra).
  assert (Hinv : 0 < 1 / (lam / (lam + 1))) by (apply Rdiv_lt_0_compat; lra).
  pose proof (power_unit_interval s (1 / (lam / (lam + 1))) (conj Hs0 Hs1)
                (Rlt_le _ _ Hinv)) as Hp.
  assert (Hu : 0 <= 1 - Np.power s (1 / (lam / (lam + 1))) <= 1) by lra.
  pose proof (power_unit_interval _ (lam / (lam + 1)) Hu (Rlt_le _ _ Hm)) as Hv.
  assert (Hsqrt : 0 <= sqrt s <= 1).
  { split; [apply sqrt_pos |]. rewrite <- sqrt_1. apply sqrt_le_1_alt. exact Hs1. }
  unfold kUnSat, Np.square.
  set (v := Np.power _ (lam / (lam + 1))) in *.
  assert (Hsq : 0 <= (1 - v) * (1 - v) <= 1) by nra.
  assert (Hks : 0 <= K * sqrt s <= K) by nra.
  nra.
Qed.

(** X15: for a saturated conductivity that is not negative, a positive
    shape parameter and a saturation term in [0,1], the unsaturated
    conductivity lies between 0 and the saturated conductivity; it is 0
    at the residual storage and the saturated conductivity at
    saturation. *)
Theorem kUnSat_range (K lam s : R) :
  0 <= K -> 0 < lam -> 0 <= s <= 1 ->
  0 <= kUnSat K lam s <= K /\ kUnSat K lam 0 = 0 /\ kUnSat K lam 1 = K.
Proof.
  intros HK Hlam Hs. repeat split.
  - apply kUnSat_nonneg, HK.
  - apply kUnSat_le_KSat; assumption.
  - apply kUnSat_dry.
  - apply kUnSat_saturated, Hlam.
Qed.

Lemma kUnSat_range_witness : 0 <= kUnSat 0.5 1 0.25 <= 0.5.
Proof. refine (proj1 (kUnSat_range 0.5 1 0.25 _ _ _)); lra. Defined.

Lemma satTermFC_full (w wres wfc : R) :
  wres < wfc -> wfc <= w -> 1 <= Np.maximum 0 (w - wres) / (wfc - wres).
Proof.
  intros Hfc Hfull.
  replace (Np.maximum 0 (w - wres)) with (w - wres) by np_lra.
  unfold Rdiv. rewrite <- (Rinv_r (wfc - wres)) by lra.
  apply Rmult_le_compat_r; [| lra].
  apply Rlt_le, Rinv_0_lt_compat. lra.
Qed.

(** X16: the capillary rise between the layers of an active cell, for
    conductivities and caps that are not negative.  Both fluxes point
    upwards and stay within their caps, the rise out of layer 3 within
    the water available there, and the exchange conserves the water of
    the three layers.  A layer at or above field capacity receives
    nothing. *)
Theorem capillary_rise_between_layers (g : Globals) (c : Cell) :
  bioarea c = true ->
  0 <= KSat2 c -> 0 <= KSat3 c ->
  0 <= kunSatFC12 c -> 0 <= kunSatFC23 c ->
  0 <= capRise1 g c <= kunSatFC12 c /\
  (0 <= capRise2_418 g c /\ capRise2_418 g c <= kunSatFC23 c /\
   capRise2_418 g c <= availWater3_392 g c) /\
  w1_427 g c + w2_428 g c + w3_429 g c
  = w1_382 g c + w2_381 g c + w3_296 g c /\
  (wres1 c < wfc1 c -> wfc1 c <= w1_382 g c -> capRise1 g c = 0) /\
  (wres2 c < wfc2 c -> wfc2 c <= w2_381 g c -> capRise2_418 g c = 0).
Proof.
  intros Hbio HK2 HK3 Hk12 Hk23.
  pose proof (kUnSat_nonneg (KSat2 c) (lambda2 c) (satTerm2_398 g c) HK2) as Hu2.
  pose proof (kUnSat_nonneg (KSat3 c) (lambda3 c) (satTerm3_400 g c) HK3) as Hu3.
  fold (kUnSat2_407 g c) in Hu2. fold (kUnSat3_408 g c) in Hu3.
  assert (Ha3 : 0 <= availWater3_392 g c) by (unfold availWater3_392; np_lra).
  split; [unfold capRise1; np_lra |].
  split; [unfold capRise2_418, capRise2_416; repeat split; np_lra |].
  split; [unfold w1_427, w2_428, w3_429; rewrite Hbio; lra |].
  split.
  - intros Hfc Hfull.
    pose proof (satTermFC_full _ _ _ Hfc Hfull) as Hsat.
    fold (satTermFC1 g c) in Hsat.
    assert (Hneg : (1 - satTermFC1 g c) * kUnSat2_407 g c <= 0) by nra.
    unfold capRise1. np_lra.
  - intros Hfc Hfull.
    pose proof (satTermFC_full _ _ _ Hfc Hfull) as Hsat.
    fold (satTermFC2 g c) in Hsat.
    assert (Hneg : (1 - satTermFC2 g c) * kUnSat3_408 g c <= 0) by nra.
    unfold capRise2_418, capRise2_416. np_lra.
Qed.

Lemma capillary_rise_between_layers_witness :
  0 <= capRise1 thresholds forest <= kunSatFC12 forest.
Proof.
  refine (proj1 (capillary_rise_between_layers thresholds forest _ _ _ _ _));
    try reflexivity; simpl; lra.
Defined.

(** One sub-step moves no more than the conductivity allows. *)
Lemma loop_body_within_conductivity (g : Globals) (c : Cell) (s : SubStep) (i : nat) :
  (0 <= KSat1 c /\ 0 <= KSat2 c /\ 0 <= KSat3 c) ->
  (0 < lambda1 c /\ 0 < lambda2 c /\ 0 < lambda3 c) ->
  0 <= capriseindex c <= 1 ->
  perc1to2 (loop_body g c s i) <= perc1to2 s + KSat1 c * DtSub /\
  perc2to3 (loop_body g c s i) <= perc2to3 s + KSat2 c * DtSub /\
  perc3toGW (loop_body g c s i) <= perc3toGW s + KSat3 c * DtSub.
Proof.
  intros (HK1 & HK2 & HK3) (Hl1 & Hl2 & Hl3) Hcri.
  pose proof DtSub_pos as Hdt.
  unfold loop_body. cbv zeta. simpl.
  set (k1 := if (0 <? i)%nat then kUnSat (KSat1 c) (lambda1 c) _
             else kUnSat1_458 g c).
  set (k2 := if (0 <? i)%nat then kUnSat (KSat2 c) (lambda2 c) _
             else kUnSat2_459 g c).
  set (k3 := if (0 <? i)%nat then kUnSat (KSat3 c) (lambda3 c) _
             else kUnSat3_460 g c).
  assert (Hk1 : 0 <= k1 <= KSat1 c).
  { unfold k1, kUnSat1_458, satTerm1_453.
    destruct (0 <? i)%nat;
      (split; [apply kUnSat_nonneg | apply kUnSat_le_KSat];
       try assumption; apply clamp01_bounds). }
  assert (Hk2 : 0 <= k2 <= KSat2 c).
  { unfold k2, kUnSat2_459, satTerm2_454.
    destruct (0 <? i)%nat;
      (split; [apply kUnSat_nonneg | apply kUnSat_le_KSat];
       try assumption; apply clamp01_bounds). }
  assert (Hk3 : 0 <= k3 <= KSat3 c).
  { unfold k3, kUnSat3_460, satTerm3_455.
    destruct (0 <? i)%nat;
      (split; [apply kUnSat_nonneg | apply kUnSat_le_KSat];
       try assumption; apply clamp01_bounds). }
  clearbody k1 k2 k3.
  assert (Hd1 : 0 <= k1 * DtSub <= KSat1 c * DtSub) by nra.
  assert (Hd2 : 0 <= k2 * DtSub <= KSat2 c * DtSub) by nra.
  assert (Hd3 : 0 <= k3 * DtSub <= KSat3 c * DtSub) by nra.
  set (m3 := Np.minimum (availWater3 s) (Np.minimum (k3 * DtSub) (availWater3 s))).
  assert (Hm3 : m3 <= k3 * DtSub) by (unfold m3; np_lra).
  assert (Hgw : m3 * (1 - capriseindex c) <= k3 * DtSub).
  { destruct (Rle_dec 0 m3); nra. }
  clearbody m3.
  repeat split; try lra; np_lra.
Qed.

Lemma fold_within_conductivity (g : Globals) (c : Cell) (l : list nat) :
  (0 <= KSat1 c /\ 0 <= KSat2 c /\ 0 <= KSat3 c) ->
  (0 < lambda1 c /\ 0 < lambda2 c /\ 0 < lambda3 c) ->
  0 <= capriseindex c <= 1 ->
  forall s,
    perc1to2 (fold_left (loop_body g c) l s)
    <= perc1to2 s + INR (length l) * (KSat1 c * DtSub) /\
    perc2to3 (fold_left (loop_body g c) l s)
    <= perc2to3 s + INR (length l) * (KSat2 c * DtSub) /\
    perc3toGW (fold_left (loop_body g c) l s)
    <= perc3toGW s + INR (length l) * (KSat3 c * DtSub).
Proof.
  intros HK Hlam Hcri. induction l as [| i l IH]; intros s.
  - simpl. lra.
  - change (fold_left (loop_body g c) (i :: l) s)
      with (fold_left (loop_body g c) l (loop_body g c s i)).
    destruct (IH (loop_body g c s i)) as (I1 & I2 & I3).
    destruct (loop_body_within_conductivity g c s i HK Hlam Hcri) as (B1 & B2 & B3).
    change (length (i :: l)) with (S (length l)). rewrite S_INR.
    repeat split; lra.
Qed.

(** X17: for saturated conductivities that are not negative, positive
    shape parameters and a blocked fraction in [0,1], the percolation
    accumulated over the three sub-steps between layers 1 and 2, between
    layers 2 and 3 and to groundwater never exceeds the saturated
    conductivity of the layer the water leaves. *)
Theorem percolation_within_conductivity (g : Globals) (c : Cell) :
  bioarea c = true ->
  (0 <= KSat1 c /\ 0 <= KSat2 c /\ 0 <= KSat3 c) ->
  (0 < lambda1 c /\ 0 < lambda2 c /\ 0 < lambda3 c) ->
  0 <= capriseindex c <= 1 ->
  perc1to2_551 g c <= KSat1 c /\
  perc2to3_552 g c <= KSat2 c /\
  ret_perc3toGW (result g c) <= KSat3 c.
Proof.
  intros Hbio HK Hlam Hcri. simpl.
  destruct (fold_within_conductivity g c (seq 0 NoSubSteps) HK Hlam Hcri
                                     (loop_init g c)) as (H1 & H2 & H3).
  fold (loop_end g c) in H1, H2, H3.
  rewrite length_seq in H1, H2, H3.
  assert (Hone : INR NoSubSteps * DtSub = 1).
  { rewrite DtSub_third. unfold NoSubSteps. simpl. lra. }
  assert (E1 : INR NoSubSteps * (KSat1 c * DtSub) = KSat1 c)
    by (rewrite <- (Rmult_1_r (KSat1 c)) at 2; rewrite <- Hone; ring).
  assert (E2 : INR NoSubSteps * (KSat2 c * DtSub) = KSat2 c)
    by (rewrite <- (Rmult_1_r (KSat2 c)) at 2; rewrite <- Hone; ring).
  assert (E3 : INR NoSubSteps * (KSat3 c * DtSub) = KSat3 c)
    by (rewrite <- (Rmult_1_r (KSat3 c)) at 2; rewrite <- Hone; ring).
  rewrite E1 in H1. rewrite E2 in H2. rewrite E3 in H3.
  change (perc1to2 (loop_init g c)) with 0 in H1.
  change (perc2to3 (loop_init g c)) with 0 in H2.
  change (perc3toGW (loop_init g c)) with 0 in H3.
  destruct HK as (HK1 & HK2 & HK3).
  unfold perc1to2_551, perc2to3_552, perc3toGW_521. rewrite Hbio.
  destruct (frozen g c); unfold Np.where_; repeat split; lra.
Qed.

Lemma percolation_within_conductivity_witness :
  ret_perc3toGW (result thresholds forest) <= KSat3 forest.
Proof.
  refine (proj2 (proj2 (percolation_within_conductivity thresholds forest
                          _ _ _ _))).
  - reflexivity.
  - simpl. lra.
  - simpl. lra.
  - simpl. lra.
Defined.

(** X18: on a well-formed active cell the percolation to groundwater is
    not negative and no more than the water the three layers hold above
    their residual storage when the loop starts; where the percolation
    is fully blocked ([capriseindex] 1) it is zero. *)
Theorem groundwater_percolation_limited (g : Globals) (c : Cell) :
  bioarea c = true ->
  wellformed g c ->
  0 <= ret_perc3toGW (result g c)
  <= (w1_427 g c - wres1 c) + (w2_428 g c - wres2 c) + (w3_429 g c - wres3 c) /\
  (capriseindex c = 1 -> ret_perc3toGW (result g c) = 0).
Proof.
  intros Hbio Hwf. simpl.
  pose proof (wf_loop_end g c Hbio Hwf)
    as ((Ha1 & Ha2 & Ha3) & _ & _ & (Hb1 & Hb2 & Hb3) & (_ & _ & Hp3) & Hblocked).
  unfold perc3toGW_521. rewrite Hbio. split; [lra | exact Hblocked].
Qed.

Lemma groundwater_percolation_limited_witness :
  ret_perc3toGW (result thresholds forest_frozen) = 0.
Proof.
  refine (proj2 (groundwater_percolation_limited thresholds forest_frozen _ _) _).
  - reflexivity.
  - column_wf.
  - reflexivity.
Defined.

Lemma loop_end_unrolled (g : Globals) (c : Cell) :
  loop_end g c
  = loop_body g c (loop_body g c (loop_body g c (loop_init g c) 0) 1) 2.
Proof. reflexivity. Qed.

(** X19: on a well-formed active cell that is not frozen, the storages
    the step leaves are the temporary storages of the last sub-step:
    what the loop computed its conductivities from is what is
    committed. *)
Theorem loop_storages_committed (g : Globals) (c : Cell) :
  bioarea c = true ->
  wellformed g c ->
  FrostIndex c <= FrostIndexThreshold g ->
  post_w1 (result g c) = wtemp1 (loop_end g c) /\
  post_w2 (result g c) = wtemp2 (loop_end g c) /\
  post_w3 (result g c) = wtemp3 (loop_end g c).
Proof.
  intros Hbio Hwf Hthaw.
  change (post_w1 (result g c)) with (w1_556 g c).
  change (post_w2 (result g c)) with (w2_558 g c).
  change (post_w3 (result g c)) with (w3_560 g c).
  assert (Hfrozen : frozen g c = false) by (apply gtb_false; exact Hthaw).
  pose proof (wf_loop_end g c Hbio Hwf)
    as (_ & _ & _ & (Hb1 & Hb2 & Hb3) & _).
  assert (Hw : wtemp1 (loop_end g c) = availWater1 (loop_end g c) + wres1 c /\
               wtemp2 (loop_end g c) = availWater2 (loop_end g c) + wres2 c /\
               wtemp3 (loop_end g c) = availWater3 (loop_end g c) + wres3 c).
  { rewrite loop_end_unrolled. repeat split; reflexivity. }
  destruct Hw as (W1 & W2 & W3).
  unfold w1_556, w2_558, w3_560, perc1to2_551, perc2to3_552, perc3toGW_521.
  rewrite Hbio, Hfrozen, W1, W2, W3. unfold Np.where_.
  repeat split; lra.
Qed.

Lemma loop_storages_committed_witness :
  post_w1 (result thresholds forest) = wtemp1 (loop_end thresholds forest).
Proof.
  refine (proj1 (loop_storages_committed thresholds forest _ _ _)).
  - reflexivity.
  - column_wf.
  - simpl. lra.
Defined.

(** ** Errors and cells left alone *)

(** X20: negative ponded water stops the step.  When the available
    water of every cell is within tolerance and some cell that is no
    paddy field holds negative ponded water, [dynamic] fails at the
    assertion of line 195. *)
Theorem negative_ponding_fails (g : Globals) (cells : list Cell) (c : Cell) :
  (forall c', In c' cells -> -1e-6 <= availWaterInfiltration_183 c') ->
  In c cells ->
  paddy_irrigated_land c = false ->
  topwater c < 0 ->
  dynamic g cells = AssertionError 195.
Proof.
  intros Htol Hin Hpaddy Hneg.
  assert (H184 : forallb assert_184 cells = true).
  { apply forallb_forall. intros c' Hc'. unfold assert_184.
    apply geb_spec. specialize (Htol c' Hc'). lra. }
  assert (H195 : forallb assert_195 cells = false).
  { destruct (forallb assert_195 cells) eqn:Hall; [| reflexivity].
    rewrite forallb_forall in Hall. specialize (Hall c Hin).
    unfold assert_195 in Hall. apply geb_spec in Hall.
    unfold topwater_193, topwater_189 in Hall. rewrite Hpaddy in Hall. lra. }
  unfold dynamic, assertions. simpl. rewrite H184, H195. reflexivity.
Qed.

Lemma negative_ponding_fails_witness :
  dynamic thresholds [forest; sealed_negative] = AssertionError 195.
Proof.
  apply (negative_ponding_fails thresholds _ sealed_negative).
  - intros c' [<- | [<- | []]]; unfold availWaterInfiltration_183; simpl; lra.
  - right. left. reflexivity.
  - reflexivity.
  - simpl. lra.
Defined.

(** X21: what the step leaves alone.  On every cell that is no paddy
    field the ponded water is unchanged and the open-water evaporation
    comes back as it was handed in; on a cell outside the soil physics
    the accumulated transpiration, bare-soil evaporation and
    evapotranspiration are unchanged as well. *)
Theorem untouched_outside_masks (g : Globals) (c : Cell) :
  paddy_irrigated_land c = false ->
  (post_topwater (result g c) = topwater c /\
   ret_openWaterEvap (result g c) = openWaterEvap c) /\
  (bioarea c = false ->
   post_actTransTotal (result g c) = actTransTotal c /\
   post_actBareSoilEvap (result g c) = actBareSoilEvap c /\
   post_actualET (result g c) = actualET c).
Proof.
  intros Hpaddy. simpl. split.
  - unfold topwater_372, topwater_367, topwater_193, topwater_189,
      openWaterEvap_192.
    rewrite Hpaddy. split; reflexivity.
  - intros Hbio.
    unfold actTransTotal_302, actBareSoilEvap_314, actBareSoilEvap_311,
      actBareSoilEvap_309, actualET_584.
    rewrite Hpaddy, Hbio. repeat split; reflexivity.
Qed.

Lemma untouched_outside_masks_witness :
  post_topwater (result thresholds forest) = topwater forest.
Proof.
  refine (proj1 (proj1 (untouched_outside_masks thresholds forest _))).
  reflexivity.
Defined.

(** ** [initial] *)

Lemma Forall_map_all (A B : Type) (P : B -> Prop) (f : A -> B) (l : list A) :
  (forall x, P (f x)) -> Forall P (map f l).
Proof.
  intros Hall. induction l as [| x l IH]; simpl; constructor; auto.
Qed.

Lemma Forall_map2_both (P Q S : R -> Prop) (f : R -> R -> R) (xs ys : list R) :
  (forall x y, P x -> Q y -> S (f x y)) ->
  Forall P xs -> Forall Q ys -> Forall S (map2 f xs ys).
Proof.
  intros Hf Hxs. revert ys. induction Hxs as [| x xs Hx Hxs IH]; intros ys Hys.
  - constructor.
  - destruct Hys as [| y ys Hy Hys]; [constructor |].
    unfold map2. simpl. constructor; [apply Hf; assumption |].
    apply IH, Hys.
Qed.

(** X22: for a calibration factor that is not negative, every thickness
    [initial] returns for layers 2 and 3 is at least 0.05 times the
    factor, whatever the storage depths are, and every value handed to
    the grid aggregation is at least twice that. *)
Theorem initial_thickness_minimum
        (n_HRU : nat) (to_HRU : list R -> list R)
        (to_grid : AggFn -> list R -> list R)
        (StorDepth1 StorDepth2 : list R) (soildepth_factor : R) :
  0 <= soildepth_factor ->
  let r := initial n_HRU to_HRU to_grid StorDepth1 StorDepth2 soildepth_factor in
  Forall (fun d => 0.05 * soildepth_factor <= d) (soildepth_1 r) /\
  Forall (fun d => 0.05 * soildepth_factor <= d) (soildepth_2 r) /\
  Forall (fun d => 0.1 * soildepth_factor <= d)
         (map2 Rplus (soildepth_1 r) (soildepth_2 r)).
Proof.
  intros Hf. simpl.
  assert (Hscale : forall x, 0.05 <= x -> 0.05 * soildepth_factor <= x * soildepth_factor)
    by (intros x Hx; nra).
  assert (H1 : Forall (fun d => 0.05 * soildepth_factor <= d)
                 (map (fun d => d * soildepth_factor)
                    (map2 (fun s d0 => Np.maximum 0.05 (s - d0))
                          (to_HRU StorDepth1) (full_compressed n_HRU 0.05)))).
  { unfold map2. rewrite map_map. apply Forall_map_all.
    intros xy. apply Hscale. apply maximum_l. }
  assert (H2 : Forall (fun d => 0.05 * soildepth_factor <= d)
                 (map (fun d => d * soildepth_factor)
                    (map (fun s => Np.maximum 0.05 s) (to_HRU StorDepth2)))).
  { rewrite map_map. apply Forall_map_all.
    intros x. apply Hscale. apply maximum_l. }
  repeat split; try assumption.
  apply (Forall_map2_both (fun d => 0.05 * soildepth_factor <= d)
                          (fun d => 0.05 * soildepth_factor <= d)
                          (fun d => 0.1 * soildepth_factor <= d) Rplus);
    try assumption.
  intros x y Hx Hy. lra.
Qed.

Lemma initial_thickness_minimum_witness :
  Forall (fun d => 0.05 * 2 <= d)
         (soildepth_1 (initial 2 (fun m => m) (fun _ d => d) [0.3; 0.07] [1; 0.01] 2)).
Proof.
  refine (proj1 (initial_thickness_minimum 2 (fun m => m) (fun _ d => d)
                   [0.3; 0.07] [1; 0.01] 2 _)).
  lra.
Defined.

(** ** The balance is exact up to the correction of line 185 *)

(** X23: for an active cell whose ponded water passes the assertion of
    line 195, with a maximum ponding depth that is not negative and no
    open-water evaporation handed in outside paddy fields, the balance
    of lines 606-613 is exactly the negative part of the incoming
    available water: zero whenever that water is not negative.  The
    tolerance is needed for the correction of line 185 alone. *)
Theorem balance_is_input_noise (g : Globals) (c : Cell) :
  bioarea c = true ->
  0 <= topwater_193 c ->
  0 <= maxtopwater g ->
  (paddy_irrigated_land c = false -> openWaterEvap c = 0) ->
  balance c (result g c) = Rmin (availWaterInfiltration_183 c) 0 /\
  (0 <= availWaterInfiltration_183 c -> balance c (result g c) = 0).
Proof.
  intros Hbio Htop Hmax Howe.
  rewrite (balance_exact g c Hbio Htop Hmax).
  assert (Hzero : (if paddy_irrigated_land c then 0 else openWaterEvap c) = 0).
  { destruct (paddy_irrigated_land c); [reflexivity | apply Howe; reflexivity]. }
  rewrite Hzero. unfold availWaterInfiltration_185.
  split; [| intros Hpos]; np_lra.
Qed.

Lemma balance_is_input_noise_witness :
  balance paddy_flooded (result thresholds paddy_flooded) = 0.
Proof.
  refine (proj2 (balance_is_input_noise thresholds paddy_flooded _ _ _ _) _).
  - reflexivity.
  - apply (wf_topwater_193 thresholds). column_wf.
  - simpl. lra.
  - discriminate.
  - unfold availWaterInfiltration_183. simpl. lra.
Defined.
